(** * Intrusion detection system: monitoring loop, alert state machine, display

    A shallow embedding of [main.py] (class [IntrusionDetectionSystem]) and
    [display.py] (classes [LCDDisplay] and [DisplayManager]).

    Python floats are IEEE 754 binary64 numbers: they are modelled by Rocq's
    primitive floats, whose comparisons and subtraction are the same
    operations.  Python integers are modelled by [Z].  Console output, calls
    to [os.system], [time.sleep] and the calls into the hardware-facing
    collaborators are recorded, in order, in a trace of events.  Exceptions
    ([Exception], [KeyboardInterrupt], [SystemExit]) are explicit outcomes of a
    small state-and-trace monad with [try]/[except] and [try]/[finally]. *)

From Stdlib Require Import Floats Bool List String ZArith Lia.
Import ListNotations.

Set Implicit Arguments.
Open Scope Z_scope.

(** ** Observable events *)

(** One piece of a printed line: literal text, or a formatted value of an
    f-string ([{x:.2f}], [{n}], [{b}]). *)
Inductive frag : Type :=
| Lit (s : string)
| Fixed (digits : nat) (x : float)
| Int (n : Z)
| Boolean (b : bool).

Definition line : Type := list frag.

(** The components [IntrusionDetectionSystem] owns. *)
Inductive component : Type := Sensors | Alerts | Display.

Inductive event : Type :=
| Print (l : line)              (* print(...) *)
| OsClear                       (* os.system('clear') *)
| Sleep (secs : float)          (* time.sleep(secs) *)
| Acquire (c : component)       (* self.x_manager = XManager() *)
| Release (c : component)       (* self.x_manager.cleanup() *)
| GpioSetMode                   (* GPIO.setmode(GPIO.BCM) *)
| GpioCleanup                   (* GPIO.cleanup() *)
| SetAlertOutput (on : bool)    (* command sent to the alert output *)
| FlaskInit                     (* initialize_flask_app(...) *)
| FlaskThreadStart.             (* flask_thread.start() *)

Definition trace : Type := list event.

(** ** Exceptions and the monad of the embedding *)

Inductive exn : Type :=
| KeyboardInterrupt
| Exception (msg : string)      (* Exception and its subclasses; msg = str(e) *)
| SystemExit (code : Z).

(** [Pending]: the inputs given to the model ran out while the code was still
    executing (the monitoring loop never returns by itself).  No handler and
    no [finally] block runs on [Pending]. *)
Inductive outcome (A : Type) : Type :=
| Return (a : A)
| Raise (e : exn)
| Pending.

Arguments Raise {A} e.
Arguments Pending {A}.

Definition M (S A : Type) : Type := S -> outcome A * S * trace.

Section Monad.
Context {S : Type}.

Definition ret {A} (a : A) : M S A := fun s => (Return a, s, []).

Definition bind {A B} (m : M S A) (k : A -> M S B) : M S B :=
  fun s =>
    match m s with
    | (Return a, s1, t1) => let '(o, s2, t2) := k a s1 in (o, s2, t1 ++ t2)
    | (Raise e, s1, t1) => (Raise e, s1, t1)
    | (Pending, s1, t1) => (Pending, s1, t1)
    end.

Definition emit (e : event) : M S unit := fun s => (Return tt, s, [e]).
Definition raise {A} (e : exn) : M S A := fun s => (Raise e, s, []).
Definition pending {A} : M S A := fun s => (Pending, s, []).
Definition get : M S S := fun s => (Return s, s, []).
Definition modify (f : S -> S) : M S unit := fun s => (Return tt, f s, []).

(** [try: m except ...]: [h e] is the handler of the first clause that
    matches [e], if any. *)
Definition try_except {A} (m : M S A) (h : exn -> option (M S A)) : M S A :=
  fun s =>
    match m s with
    | (Raise e, s1, t1) =>
        match h e with
        | Some k => let '(o, s2, t2) := k s1 in (o, s2, t1 ++ t2)
        | None => (Raise e, s1, t1)
        end
    | r => r
    end.

(** [try: m finally: f]: [f] runs however [m] ends; an exception raised by
    [f] replaces the outcome of [m]. *)
Definition try_finally {A} (m : M S A) (f : M S unit) : M S A :=
  fun s =>
    match m s with
    | (Pending, s1, t1) => (Pending, s1, t1)
    | (o, s1, t1) =>
        match f s1 with
        | (Return _, s2, t2) => (o, s2, t1 ++ t2)
        | (Raise e, s2, t2) => (Raise e, s2, t1 ++ t2)
        | (Pending, s2, t2) => (Pending, s2, t1 ++ t2)
        end
    end.

(** [except Exception as e: k e] *)
Definition on_exception {A} (k : string -> M S A) (e : exn) : option (M S A) :=
  match e with
  | Exception msg => Some (k msg)
  | _ => None
  end.

(** [except KeyboardInterrupt: ki] followed by [except Exception as e: k e] *)
Definition on_interrupt_or_exception {A} (ki : M S A) (k : string -> M S A)
    (e : exn) : option (M S A) :=
  match e with
  | KeyboardInterrupt => Some ki
  | Exception msg => Some (k msg)
  | SystemExit _ => None
  end.

Definition print (l : line) : M S unit := emit (Print l).
Definition say (s : string) : M S unit := emit (Print [Lit s]).

(** [time.sleep(secs)]; [fault] is what the call raises, if anything
    (a [KeyboardInterrupt] delivered while sleeping). *)
Definition sleep (secs : float) (fault : option exn) : M S unit :=
  fun s =>
    match fault with
    | Some e => (Raise e, s, [Sleep secs])
    | None => (Return tt, s, [Sleep secs])
    end.

(** [sys.exit(code)] *)
Definition sys_exit {A} (code : Z) : M S A := raise (SystemExit code).
End Monad.

Declare Scope py_scope.
Delimit Scope py_scope with py.
Notation "x <- m ;; k" := (bind m (fun x => k))
  (at level 100, m at next level, right associativity) : py_scope.
Notation "m ;; k" := (bind m (fun _ => k))
  (at level 100, right associativity) : py_scope.

(** Run [m] on the part of the state that [proj] selects; [inj] writes the
    part back. *)
Definition zoom {S T A} (proj : S -> T) (inj : T -> S -> S) (m : M T A) : M S A :=
  fun s => let '(o, t, tr) := m (proj s) in (o, inj t s, tr).

(** [s * n] on strings *)
Fixpoint str_repeat (s : string) (n : nat) : string :=
  match n with
  | O => EmptyString
  | S n' => String.append s (str_repeat s n')
  end.

(** ** display.py *)

Record LCDDisplay : Type := mkLCDDisplay {
  enable_framebuffer : bool;
  current_message : string;
  last_update_time : float;
  display_update_interval : float
}.

(** The dict built by [show_intrusion_alert] and [show_area_safe]; a key that
    is absent is [None]. *)
Record display_data : Type := mkData {
  data_motion : option bool;
  data_distance : option float;
  data_timestamp : option string
}.

(** [if data:] -- [None] and the empty dict are false. *)
Definition data_truthy (data : option display_data) : bool :=
  match data with
  | None => false
  | Some d =>
      match data_motion d, data_distance d, data_timestamp d with
      | None, None, None => false
      | _, _, _ => true
      end
  end.

Record DisplayManager : Type := mkDisplayManager {
  lcd : LCDDisplay;
  display_count : Z
}.

Definition set_lcd (l : LCDDisplay) (dm : DisplayManager) : DisplayManager :=
  mkDisplayManager l (display_count dm).

(** ** The collaborators of main.py that are not part of the sources *)

(** Modelled from the spec: the alert state of [alerts.py] (AlertState,
    section 3), which is missing from the sources. *)
Inductive AlertState : Type := SAFE | ALERT.

(** Modelled from the spec: the side-effect command of [update] (section 4.2);
    [alerts.py] is missing from the sources. *)
Inductive command : Type :=
| ActivateOutput
| ReassertOutput
| DeactivateOutput
| NoCommand.

(** Modelled from the spec: [AlertManager] of the missing [alerts.py], the
    logical alert state together with the level of the physical output. *)
Record AlertManager : Type := mkAlertManager {
  alert_state : AlertState;
  alert_output : bool
}.

(** [SensorManager] of [sensors.py] (not part of the sources): an opaque
    handle; what [read_sensors] returns is an input of the model. *)
Inductive SensorManager : Type := SensorPort.

(** What one call of [read_sensors()] does: it returns the tuple
    [(motion_detected, distance, temperature, humidity)], raises an exception
    (the acquisition fails entirely), or is interrupted by the operator. *)
Inductive acquisition : Type :=
| Reading (motion_detected : bool) (distance : float)
          (temperature humidity : option float)
| SensorError (msg : string)
| SensorInterrupt.

(** The inputs of one pass of the monitoring loop. *)
Record cycle_input : Type := mkCycle {
  acquired : acquisition;        (* outcome of read_sensors() *)
  clock : float;                 (* time.time() inside display_message *)
  stamp : string;                (* time.strftime(...) inside update_display *)
  delay_fault : option exn;      (* raised by time.sleep(MAIN_LOOP_DELAY) *)
  retry_fault : option exn       (* raised by time.sleep(1) in the handler *)
}.

(** ** main.py *)

(** The attributes of [self]; an attribute that has not been assigned yet is
    [None] (reading it raises AttributeError).  [running] and [cycle_count]
    are only read after [__init__] has assigned them. *)
Record IntrusionDetectionSystem : Type := mkIDS {
  sensor_manager : option SensorManager;
  alert_manager : option AlertManager;
  display_manager : option DisplayManager;
  running : bool;
  cycle_count : Z
}.

Definition set_sensor_manager (x : SensorManager) (s : IntrusionDetectionSystem) :=
  mkIDS (Some x) (alert_manager s) (display_manager s) (running s) (cycle_count s).
Definition set_alert_manager (x : AlertManager) (s : IntrusionDetectionSystem) :=
  mkIDS (sensor_manager s) (Some x) (display_manager s) (running s) (cycle_count s).
Definition set_display_manager (x : DisplayManager) (s : IntrusionDetectionSystem) :=
  mkIDS (sensor_manager s) (alert_manager s) (Some x) (running s) (cycle_count s).
Definition set_running (b : bool) (s : IntrusionDetectionSystem) :=
  mkIDS (sensor_manager s) (alert_manager s) (display_manager s) b (cycle_count s).
Definition set_cycle_count (n : Z) (s : IntrusionDetectionSystem) :=
  mkIDS (sensor_manager s) (alert_manager s) (display_manager s) (running s) n.

(** The object before [__init__] has assigned anything. *)
Definition blank : IntrusionDetectionSystem := mkIDS None None None false 0.

Definition nl : string := String (Ascii.ascii_of_nat 10) EmptyString.

Definition attribute_error (name : string) : exn :=
  Exception (String.append "'IntrusionDetectionSystem' object has no attribute '"
               (String.append name "'")).

(** [self.<name>.method(...)]: run [m] on the attribute, AttributeError when
    it is not there. *)
Definition with_attr {T A} (name : string)
    (proj : IntrusionDetectionSystem -> option T)
    (inj : T -> IntrusionDetectionSystem -> IntrusionDetectionSystem)
    (m : M T A) : M IntrusionDetectionSystem A :=
  fun s =>
    match proj s with
    | Some t => let '(o, t', tr) := m t in (o, inj t' s, tr)
    | None => (Raise (attribute_error name), s, [])
    end.

Definition in_sensors {A} (m : M SensorManager A) : M IntrusionDetectionSystem A :=
  with_attr "sensor_manager" sensor_manager set_sensor_manager m.
Definition in_alerts {A} (m : M AlertManager A) : M IntrusionDetectionSystem A :=
  with_attr "alert_manager" alert_manager set_alert_manager m.
Definition in_display {A} (m : M DisplayManager A) : M IntrusionDetectionSystem A :=
  with_attr "display_manager" display_manager set_display_manager m.

(** The calls of [__init__] that reach outside the sources and may fail. *)
Inductive init_step : Type :=
| AtSensorManager      (* SensorManager() *)
| AtAlertManager       (* AlertManager() *)
| AtFlaskInit          (* initialize_flask_app(...) *)
| AtFlaskThread.       (* Thread(...).start() *)

Definition init_step_eqb (a b : init_step) : bool :=
  match a, b with
  | AtSensorManager, AtSensorManager
  | AtAlertManager, AtAlertManager
  | AtFlaskInit, AtFlaskInit
  | AtFlaskThread, AtFlaskThread => true
  | _, _ => false
  end.

(** The call at [here] raises [Exception(msg)] when the fault is placed on it. *)
Definition may_fail {S} (here : init_step) (fault : option (init_step * string))
    : M S unit :=
  match fault with
  | Some (step, msg) => if init_step_eqb here step then raise (Exception msg) else ret tt
  | None => ret tt
  end.

(** The exit status of the Python process for the way [main()] ended: the code
    of [SystemExit], 1 for an uncaught exception (after the traceback), 130 for
    an uncaught [KeyboardInterrupt]; nothing while the program still runs. *)
Definition exit_status {A} (o : outcome A) : option Z :=
  match o with
  | Return _ => Some 0
  | Raise (SystemExit code) => Some code
  | Raise (Exception _) => Some 1
  | Raise KeyboardInterrupt => Some 130
  | Pending => None
  end.

Open Scope py_scope.

Section Config.
(** The constants of [config.py], which is not part of the sources. *)
Variable DISTANCE_THRESHOLD : float.
Variable MAIN_LOOP_DELAY : float.
Variables INTRUSION_MESSAGE SAFE_MESSAGE SYSTEM_STARTUP SYSTEM_SHUTDOWN : string.

(** [LCDDisplay.__init__] *)
Definition LCDDisplay_init (enable_framebuffer : bool) : LCDDisplay * trace :=
  (mkLCDDisplay enable_framebuffer EmptyString 0%float 1.0%float,
   [Print [Lit "[DISPLAY] LCD display module initialized"]]).

(** [LCDDisplay.clear_screen] *)
Definition clear_screen : M LCDDisplay unit :=
  try_except
    (emit OsClear ;;
     say "[DISPLAY] Screen cleared")
    (on_exception (fun e => print [Lit "[ERROR] Failed to clear screen: "; Lit e])).

Definition banner : M LCDDisplay unit :=
  say (str_repeat "=" 50) ;;
  say "  INTRUSION DETECTION SYSTEM - RASPBERRY PI 4" ;;
  say (str_repeat "=" 50).

(** The body of [if data: ...] in [display_message]. *)
Definition show_data (d : display_data) : M LCDDisplay unit :=
  match data_motion d with
  | Some motion =>
      print [Lit "Motion Detection: "; Lit (if motion then "DETECTED" else "CLEAR")]
  | None => ret tt
  end ;;
  match data_distance d with
  | Some distance =>
      if (0 <? distance)%float
      then print [Lit "Distance: "; Fixed 2 distance; Lit " cm"]
      else say "Distance: No valid reading"
  | None => ret tt
  end ;;
  match data_timestamp d with
  | Some ts => print [Lit "Time: "; Lit ts]
  | None => ret tt
  end.

(** [LCDDisplay.display_message]; [current_time] is the value that
    [time.time()] returns in the call. *)
Definition display_message (current_time : float) (message : string)
    (data : option display_data) : M LCDDisplay unit :=
  try_except
    (self <- get ;;
     if (display_update_interval self <=? current_time - last_update_time self)%float
     then
       clear_screen ;;
       banner ;;
       print [] ;;
       print [Lit "STATUS: "; Lit message] ;;
       print [] ;;
       match data with
       | Some d => if data_truthy data then show_data d else ret tt
       | None => ret tt
       end ;;
       print [] ;;
       say (str_repeat "=" 50) ;;
       modify (fun self =>
                 mkLCDDisplay (enable_framebuffer self) message current_time
                              (display_update_interval self))
     else ret tt)
    (on_exception (fun e => print [Lit "[ERROR] Failed to display message: "; Lit e])).

(** [LCDDisplay.show_intrusion_alert] *)
Definition show_intrusion_alert (current_time : float) (distance : float)
    (timestamp : string) : M LCDDisplay unit :=
  let data := mkData (Some true) (Some distance) (Some timestamp) in
  display_message current_time INTRUSION_MESSAGE (Some data).

(** [LCDDisplay.show_area_safe] *)
Definition show_area_safe (current_time : float) (distance : float)
    (timestamp : string) : M LCDDisplay unit :=
  let data := mkData (Some false) (Some distance) (Some timestamp) in
  display_message current_time SAFE_MESSAGE (Some data).

(** [LCDDisplay.show_startup_message]; [fault] is what [time.sleep(2)]
    raises, if anything. *)
Definition show_startup_message (fault : option exn) : M LCDDisplay unit :=
  clear_screen ;;
  banner ;;
  print [] ;;
  print [Lit "STATUS: "; Lit SYSTEM_STARTUP] ;;
  print [] ;;
  say "Initializing sensors and alert system..." ;;
  say "Please wait..." ;;
  print [] ;;
  say (str_repeat "=" 50) ;;
  sleep 2 fault.

(** [LCDDisplay.show_shutdown_message] *)
Definition show_shutdown_message : M LCDDisplay unit :=
  clear_screen ;;
  banner ;;
  print [] ;;
  print [Lit "STATUS: "; Lit SYSTEM_SHUTDOWN] ;;
  print [] ;;
  say "Cleaning up resources and exiting..." ;;
  say "Thank you for using this system" ;;
  print [] ;;
  say (str_repeat "=" 50).

(** [LCDDisplay.show_error_message] *)
Definition show_error_message (error_code error_description : string)
    : M LCDDisplay unit :=
  clear_screen ;;
  say (str_repeat "=" 50) ;;
  say "  INTRUSION DETECTION SYSTEM - ERROR" ;;
  say (str_repeat "=" 50) ;;
  print [] ;;
  print [Lit "ERROR CODE: "; Lit error_code] ;;
  print [Lit "DESCRIPTION: "; Lit error_description] ;;
  print [] ;;
  say "System will shutdown. Please check connections." ;;
  print [] ;;
  say (str_repeat "=" 50).

(** [LCDDisplay.cleanup] *)
Definition LCDDisplay_cleanup : M LCDDisplay unit :=
  say "[DISPLAY] LCD display cleaned up".

(** [DisplayManager.__init__] *)
Definition DisplayManager_init (enable_framebuffer : bool) : DisplayManager * trace :=
  let '(l, tr) := LCDDisplay_init enable_framebuffer in
  (mkDisplayManager l 0, tr ++ [Print [Lit "[DISPLAY] Display manager initialized"]]).

Definition in_lcd {A} (m : M LCDDisplay A) : M DisplayManager A :=
  zoom lcd set_lcd m.

(** [DisplayManager.update_display]; [timestamp] is the string that
    [time.strftime] returns in the call. *)
Definition update_display (current_time : float) (timestamp : string)
    (intrusion_detected motion : bool) (distance : float) : M DisplayManager unit :=
  (if intrusion_detected
   then in_lcd (show_intrusion_alert current_time distance timestamp)
   else in_lcd (show_area_safe current_time distance timestamp)) ;;
  modify (fun self => mkDisplayManager (lcd self) (display_count self + 1)).

(** [DisplayManager.show_startup], [show_shutdown], [show_error], [cleanup] *)
Definition show_startup (fault : option exn) : M DisplayManager unit :=
  in_lcd (show_startup_message fault).

Definition show_shutdown : M DisplayManager unit :=
  in_lcd show_shutdown_message.

Definition show_error (error_code error_description : string) : M DisplayManager unit :=
  in_lcd (show_error_message error_code error_description).

Definition DisplayManager_cleanup : M DisplayManager unit :=
  in_lcd LCDDisplay_cleanup ;;
  say "[DISPLAY] Display manager cleaned up".

(** *** alerts.py and sensors.py, as main.py uses them *)

(** A distance is valid when it is not the negative sentinel: the test
    [distance >= 0] of the monitoring loop. *)
Definition distance_valid (distance : float) : bool := (0 <=? distance)%float.

(** Modelled from the spec: [AlertManager.check_intrusion] of the missing
    [alerts.py], the IntrusionEvaluator of section 4.1:
    verdict = motion AND (distance valid AND distance < threshold). *)
Definition check_intrusion (motion : bool) (distance threshold : float) : bool :=
  motion && (distance_valid distance && (distance <? threshold)%float).

(** Modelled from the spec: the transition table of section 4.2, the
    [update(verdict) -> (newState, sideEffectCommand)] of the AlertController;
    [alerts.py] is missing from the sources. *)
Definition update (state : AlertState) (verdict : bool) : AlertState * command :=
  match state, verdict with
  | SAFE, true => (ALERT, ActivateOutput)
  | ALERT, true => (ALERT, ReassertOutput)
  | ALERT, false => (SAFE, DeactivateOutput)
  | SAFE, false => (SAFE, NoCommand)
  end.

(** Modelled from the spec: what a command does to the alert output
    (section 4.2); the re-assert is suppressed, so the output does not
    flicker.  [alerts.py] is missing from the sources. *)
Definition actuate (c : command) : M AlertManager unit :=
  match c with
  | ActivateOutput =>
      emit (SetAlertOutput true) ;;
      modify (fun self => mkAlertManager (alert_state self) true)
  | DeactivateOutput =>
      emit (SetAlertOutput false) ;;
      modify (fun self => mkAlertManager (alert_state self) false)
  | ReassertOutput | NoCommand => ret tt
  end.

(** Modelled from the spec: [AlertManager.update_status] of the missing
    [alerts.py]: it commits the state of [update] and issues its command. *)
Definition update_status (intrusion : bool) : M AlertManager unit :=
  self <- get ;;
  let '(new_state, c) := update (alert_state self) intrusion in
  modify (fun self => mkAlertManager new_state (alert_output self)) ;;
  actuate c.

(** Modelled from the spec: [AlertManager.__init__] of the missing
    [alerts.py]: the state is SAFE at startup, the output is off. *)
Definition AlertManager_init : AlertManager := mkAlertManager SAFE false.

(** Modelled from the spec: [AlertManager.cleanup] of the missing [alerts.py]:
    it forces the output to the deactivated state before releasing it
    (section 4.2). *)
Definition AlertManager_cleanup : M AlertManager unit :=
  emit (SetAlertOutput false) ;;
  modify (fun _ => mkAlertManager SAFE false) ;;
  emit (Release Alerts).

(** [SensorManager.read_sensors] and [SensorManager.cleanup] of [sensors.py]. *)
Definition read_sensors (a : acquisition)
    : M SensorManager (bool * float * option float * option float) :=
  match a with
  | Reading motion_detected distance temperature humidity =>
      ret (motion_detected, distance, temperature, humidity)
  | SensorError msg => raise (Exception msg)
  | SensorInterrupt => raise KeyboardInterrupt
  end.

Definition SensorManager_cleanup : M SensorManager unit := emit (Release Sensors).

(** *** class IntrusionDetectionSystem *)

Definition Self : Type := IntrusionDetectionSystem.

(** [IntrusionDetectionSystem.cleanup] *)
Definition cleanup : M Self unit :=
  say (nl ++ "[SYSTEM] Initiating system shutdown...") ;;
  say ("[SYSTEM] Cleaning up resources..." ++ nl) ;;
  try_finally
    (try_except
       ((* hasattr(self, 'cloud_thread') is false: nothing assigns it *)
        (* Show shutdown message on display *)
        in_display show_shutdown ;;
        (* Clean up all components in reverse order *)
        in_alerts AlertManager_cleanup ;;
        in_sensors SensorManager_cleanup ;;
        in_display (emit (Release Display) ;; DisplayManager_cleanup) ;;
        (* Clean up GPIO *)
        emit GpioCleanup ;;
        say "[GPIO] GPIO cleaned up successfully" ;;
        say (nl ++ "[SYSTEM] System shutdown complete") ;;
        say (str_repeat "=" 70 ++ nl))
       (on_exception (fun e => print [Lit "[ERROR] Error during cleanup: "; Lit e])))
    ((* Ensure program exits *)
     sys_exit 0).

(** [IntrusionDetectionSystem.__init__]; [fault] places a failure on one of
    the calls that can fail. *)
Definition init (fault : option (init_step * string)) : M Self unit :=
  say (nl ++ str_repeat "=" 70) ;;
  say "  REAL-TIME INTRUSION DETECTION SYSTEM FOR RASPBERRY PI 4" ;;
  say "  WITH CLOUD INTEGRATION & WEB DASHBOARD" ;;
  say (str_repeat "=" 70 ++ nl) ;;
  try_except
    (say ("[SYSTEM] GPIO mode already configured" ++ nl) ;;
     (* Initialize all system components *)
     say "[SYSTEM] Initializing components..." ;;
     may_fail AtSensorManager fault ;;
     emit (Acquire Sensors) ;;
     modify (set_sensor_manager SensorPort) ;;
     may_fail AtAlertManager fault ;;
     emit (Acquire Alerts) ;;
     modify (set_alert_manager AlertManager_init) ;;
     emit (Acquire Display) ;;
     (fun s => let '(dm, tr) := DisplayManager_init false in
               (Return tt, set_display_manager dm s, tr)) ;;
     may_fail AtFlaskInit fault ;;
     emit FlaskInit ;;
     may_fail AtFlaskThread fault ;;
     emit FlaskThreadStart ;;
     say "[SYSTEM] Flask web server started in background" ;;
     say "[SYSTEM] Access dashboard at: http://localhost:5000" ;;
     modify (set_running true) ;;
     modify (set_cycle_count 0) ;;
     say (nl ++ "[SYSTEM] All components initialized successfully!") ;;
     say ("[SYSTEM] Starting monitoring immediately..." ++ nl))
    (on_exception (fun e =>
       print [Lit (nl ++ "[ERROR] System initialization failed: "); Lit e] ;;
       in_display (show_error "INIT_ERROR" e) ;;
       cleanup ;;
       sys_exit 1)).

(** The local [dist_str] of the diagnostic log. *)
Definition dist_str (distance : float) : frag :=
  if (0 <=? distance)%float then Fixed 2 distance else Lit "Invalid".

(** Lines 103-142: the body of the inner [try] up to [self.cycle_count += 1];
    the result is the local variable [intrusion]. *)
Definition monitor_cycle (i : cycle_input) : M Self bool :=
  (* Step 1: Read sensor data *)
  r <- in_sensors (read_sensors (acquired i)) ;;
  let '(motion_detected, distance, temperature, humidity) := r in
  (* Handle None values from DHT sensor *)
  let temperature := match temperature with None => Some 0.0%float | t => t end in
  let humidity := match humidity with None => Some 0.0%float | h => h end in
  (* Step 2: Check intrusion condition *)
  intrusion <- in_alerts (ret (check_intrusion motion_detected distance DISTANCE_THRESHOLD)) ;;
  (* Step 3: Update alert system based on intrusion status *)
  in_alerts (update_status intrusion) ;;
  (* Step 4: Update LCD display *)
  in_display (update_display (clock i) (stamp i) intrusion motion_detected distance) ;;
  (* Log cycle information *)
  self <- get ;;
  (if cycle_count self mod 10 =? 0
   then
     let temp_str := match temperature with Some t => Fixed 1 t | None => Lit "N/A" end in
     let hum_str := match humidity with Some h => Fixed 1 h | None => Lit "N/A" end in
     let dist_str := dist_str distance in
     print [Lit "[CYCLE "; Int (cycle_count self); Lit "] ";
            Lit "Motion="; Boolean motion_detected; Lit " | ";
            Lit "Distance="; dist_str; Lit "cm | ";
            Lit "Temp="; temp_str; Lit "°C | ";
            Lit "Humidity="; hum_str; Lit "% | ";
            Lit "Intrusion="; Boolean intrusion]
   else ret tt) ;;
  modify (fun self => set_cycle_count (cycle_count self + 1) self) ;;
  ret intrusion.

(** One pass of [while self.running:], lines 102-156; the result tells whether
    the pass ended in [break]. *)
Definition monitor_pass (i : cycle_input) : M Self bool :=
  try_except
    (monitor_cycle i ;;
     (* Step 5: Delay before next monitoring cycle *)
     sleep MAIN_LOOP_DELAY (delay_fault i) ;;
     ret false)
    (on_interrupt_or_exception
       (say (nl ++ nl ++ "[SYSTEM] Keyboard interrupt received!") ;;
        modify (set_running false) ;;
        ret true)
       (fun e =>
          print [Lit "[ERROR] Error during monitoring cycle: "; Lit e] ;;
          sleep 1 (retry_fault i) ;;
          ret false)).

(** [while self.running: ...] over the inputs of the successive passes. *)
Fixpoint monitor_loop (feed : list cycle_input) : M Self unit :=
  self <- get ;;
  if running self
  then
    match feed with
    | [] => pending
    | i :: rest =>
        stop <- monitor_pass i ;;
        if stop then ret tt else monitor_loop rest
    end
  else ret tt.

(** [IntrusionDetectionSystem.monitor_restricted_area]; [startup_fault] is
    what the [time.sleep(2)] of the startup message raises, if anything. *)
Definition monitor_restricted_area (startup_fault : option exn)
    (feed : list cycle_input) : M Self unit :=
  say (nl ++ "[SYSTEM] Starting restricted area monitoring...") ;;
  say ("[SYSTEM] Press Ctrl+C to stop the system" ++ nl) ;;
  (* Show startup message on display *)
  in_display (show_startup startup_fault) ;;
  try_except
    (monitor_loop feed)
    (on_exception (fun e =>
       print [Lit "[ERROR] Fatal error in monitoring loop: "; Lit e] ;;
       in_display (show_error "RUNTIME_ERROR" e))).

(** [IntrusionDetectionSystem.run] *)
Definition run (startup_fault : option exn) (feed : list cycle_input) : M Self unit :=
  try_finally
    (try_except
       (monitor_restricted_area startup_fault feed)
       (on_interrupt_or_exception
          (say (nl ++ "[SYSTEM] System interrupted by user"))
          (fun e => print [Lit (nl ++ "[ERROR] Unexpected error: "); Lit e])))
    cleanup.

(** The module-level statements of [main.py], then [main()]:
    [system = IntrusionDetectionSystem(); system.run()]. *)
Definition main (init_fault : option (init_step * string))
    (startup_fault : option exn) (feed : list cycle_input) : M Self unit :=
  emit GpioSetMode ;;
  say "[SYSTEM] GPIO mode set to BCM numbering" ;;
  init init_fault ;;
  run startup_fault feed.

(** The whole process: [main()] on a fresh object. *)
Definition program (init_fault : option (init_step * string))
    (startup_fault : option exn) (feed : list cycle_input)
    : outcome unit * Self * trace :=
  main init_fault startup_fault feed blank.

(** ** Vocabulary of the statements *)

(** All three managers have been assigned. *)
Definition initialized (s : Self) : bool :=
  match sensor_manager s, alert_manager s, display_manager s with
  | Some _, Some _, Some _ => true
  | _, _, _ => false
  end.

(** The alert state and the level of the alert output of the system. *)
Definition system_alert_state (s : Self) : option AlertState :=
  option_map alert_state (alert_manager s).
Definition system_alert_output (s : Self) : option bool :=
  option_map alert_output (alert_manager s).
Definition system_display_count (s : Self) : option Z :=
  option_map display_count (display_manager s).

(** The components constructed, and those cleaned up, in the order of the trace. *)
Fixpoint acquisitions (tr : trace) : list component :=
  match tr with
  | [] => []
  | Acquire c :: tr' => c :: acquisitions tr'
  | _ :: tr' => acquisitions tr'
  end.

Fixpoint releases (tr : trace) : list component :=
  match tr with
  | [] => []
  | Release c :: tr' => c :: releases tr'
  | _ :: tr' => releases tr'
  end.

(** The events that reach the hardware: everything but console output,
    screen clearing and sleeping. *)
Definition is_hardware (e : event) : bool :=
  match e with
  | Print _ | OsClear | Sleep _ => false
  | _ => true
  end.

Definition hardware (tr : trace) : trace := filter is_hardware tr.

(** An event of the steady state: no component is constructed or cleaned up. *)
Definition steady (e : event) : bool :=
  match e with
  | Acquire _ | Release _ | GpioSetMode | GpioCleanup | FlaskInit | FlaskThreadStart => false
  | _ => true
  end.

(** The error screen of [show_error_message] appears in the trace. *)
Definition shows_error (tr : trace) : bool :=
  existsb (fun e => match e with
                    | Print [Lit s] => String.eqb s "  INTRUSION DETECTION SYSTEM - ERROR"
                    | _ => false
                    end) tr.

(** A pass that nothing disturbs: the sensors answer or fail, and no sleep is
    interrupted. *)
Definition quiet (i : cycle_input) : bool :=
  match acquired i, delay_fault i, retry_fault i with
  | (Reading _ _ _ _ | SensorError _), None, None => true
  | _, _, _ => false
  end.

(** The verdicts of the passes whose acquisition succeeded, in order. *)
Fixpoint verdicts (feed : list cycle_input) : list bool :=
  match feed with
  | [] => []
  | i :: rest =>
      match acquired i with
      | Reading motion_detected distance _ _ =>
          check_intrusion motion_detected distance DISTANCE_THRESHOLD :: verdicts rest
      | _ => verdicts rest
      end
  end.

(** The transition table of [update] folded over a sequence of verdicts. *)
Definition fold_table (state : AlertState) (vs : list bool) : AlertState :=
  fold_left (fun s v => fst (update s v)) vs state.

(** The state that a rendering call of [display_message] commits. *)
Definition committed (self : LCDDisplay) (message : string) (current_time : float) :=
  mkLCDDisplay (enable_framebuffer self) message current_time
               (display_update_interval self).

(** The dict that [update_display] hands to [display_message] when the flag
    under ['motion'] is [flag]. *)
Definition rendered_data (flag : bool) (distance : float) (timestamp : string)
    : display_data :=
  mkData (Some flag) (Some distance) (Some timestamp).

(** The two lines that [display_message] can print for a distance. *)
Definition distance_line (distance : float) : event :=
  Print [Lit "Distance: "; Fixed 2 distance; Lit " cm"].
Definition no_reading_line : event :=
  Print [Lit "Distance: No valid reading"].

(** What the handler of a failed cycle leaves in the trace: the error line
    and the fixed pause of one second. *)
Definition failed_cycle_trace (msg : string) : trace :=
  [Print [Lit "[ERROR] Error during monitoring cycle: "; Lit msg]; Sleep 1].

(** The hardware events of [cleanup], in order. *)
Definition shutdown_sequence : trace :=
  [SetAlertOutput false; Release Alerts; Release Sensors; Release Display; GpioCleanup].

(** [update_status] applied to each verdict of a sequence, in order. *)
Fixpoint update_all (vs : list bool) : M AlertManager unit :=
  match vs with
  | [] => ret tt
  | v :: vs' => update_status v ;; update_all vs'
  end.

(** The operator interrupts the pass while the sensors are read. *)
Definition interrupted (i : cycle_input) : bool :=
  match acquired i with
  | SensorInterrupt => true
  | _ => false
  end.

(** The line of the diagnostic log, as [monitor_restricted_area] builds
    [log_message] for cycle number [n]. *)
Definition cycle_log (n : Z) (motion_detected : bool) (distance : float)
    (temperature humidity : option float) (intrusion : bool) : event :=
  Print [Lit "[CYCLE "; Int n; Lit "] ";
         Lit "Motion="; Boolean motion_detected; Lit " | ";
         Lit "Distance="; dist_str distance; Lit "cm | ";
         Lit "Temp=";
         match temperature with Some t => Fixed 1 t | None => Fixed 1 0.0%float end;
         Lit "°C | ";
         Lit "Humidity=";
         match humidity with Some h => Fixed 1 h | None => Fixed 1 0.0%float end;
         Lit "% | ";
         Lit "Intrusion="; Boolean intrusion].

(** A printed line that starts like a line of the diagnostic log. *)
Definition is_cycle_log (e : event) : bool :=
  match e with
  | Print (Lit s :: _) => String.eqb s "[CYCLE "
  | _ => false
  end.

(** A pass whose acquisition fails and whose pause is not disturbed. *)
Definition failing (i : cycle_input) : bool :=
  match acquired i, retry_fault i with
  | SensorError _, None => true
  | _, _ => false
  end.

(** What the handler prints and sleeps over a feed of failing passes. *)
Fixpoint failure_trace (feed : list cycle_input) : trace :=
  match feed with
  | [] => []
  | i :: rest =>
      match acquired i with
      | SensorError msg => failed_cycle_trace msg ++ failure_trace rest
      | _ => failure_trace rest
      end
  end.

(** The line that the handler of [KeyboardInterrupt] prints inside the loop. *)
Definition interrupt_line : event :=
  Print [Lit (nl ++ nl ++ "[SYSTEM] Keyboard interrupt received!")].


(** The settings of the LCD object: the framebuffer flag and the interval. *)
Definition lcd_settings (s : Self) : option (bool * float) :=
  option_map (fun dm => (enable_framebuffer (lcd dm), display_update_interval (lcd dm)))
             (display_manager s).

Definition same_lcd_settings (s s' : Self) : Prop := lcd_settings s' = lcd_settings s.

(** Some printed line of the trace starts with the literal text [prefix]. *)
Definition prints_line_with (prefix : string) (tr : trace) : bool :=
  existsb (fun e => match e with
                    | Print (Lit s :: _) => String.eqb s prefix
                    | _ => false
                    end) tr.

(** The key is in the dict ([key in data], false for [None]). *)
Definition has_key {A} (key : display_data -> option A) (data : option display_data)
    : bool :=
  match data with
  | Some d => match key d with Some _ => true | None => false end
  | None => false
  end.

(** The same pass with another outcome of [read_sensors()]. *)
Definition with_acquired (a : acquisition) (i : cycle_input) : cycle_input :=
  mkCycle a (clock i) (stamp i) (delay_fault i) (retry_fault i).

(** [x if x is not None else 0.0] *)
Definition or_zero (x : option float) : option float :=
  match x with
  | None => Some 0.0%float
  | Some _ => x
  end.

(** ** Floating-point comparisons *)

Lemma SFcompare_swap (x y : spec_float) :
  SFcompare y x = option_map CompOpp (SFcompare x y).
Proof.
  destruct x as [sx|sx| |sx mx ex], y as [sy|sy| |sy my ey]; simpl;
    try destruct sx; try destruct sy; simpl; try reflexivity;
    rewrite (Z.compare_antisym ey ex); destruct (ey ?= ex)%Z; simpl; try reflexivity;
    rewrite (Pos.compare_cont_antisym mx my Eq); simpl;
    destruct (Pos.compare_cont Eq my mx); reflexivity.
Qed.

(** [x < y] excludes [y <= x], also when one of them is not a number. *)
Lemma ltb_leb_false (x y : float) :
  (x <? y)%float = true -> (y <=? x)%float = false.
Proof.
  rewrite ltb_spec, leb_spec. unfold SFltb, SFleb.
  rewrite (SFcompare_swap (Prim2SF x) (Prim2SF y)).
  destruct (SFcompare (Prim2SF x) (Prim2SF y)) as [[ | | ]|]; simpl; congruence.
Qed.

(** ** display.py *)

Ltac unfold_display :=
  unfold display_message, show_data, clear_screen, banner, data_truthy,
    try_except, on_exception, bind, get, modify, emit, print, say, ret.

Lemma display_message_not_due self current_time message data :
  (display_update_interval self <=? current_time - last_update_time self)%float = false ->
  display_message current_time message data self = (Return tt, self, []).
Proof.
  intros E. unfold_display. rewrite E. reflexivity.
Qed.

Lemma display_message_due self current_time message data :
  (display_update_interval self <=? current_time - last_update_time self)%float = true ->
  exists tr,
    display_message current_time message data self
    = (Return tt, committed self message current_time, OsClear :: tr)
    /\ forallb steady tr = true.
Proof.
  intros E. unfold_display. rewrite E.
  destruct data as [[[m|] [x|] [ts|]]|]; simpl;
    try destruct (0 <? x)%float; simpl; eexists; split; reflexivity.
Qed.

(** [display_message] never raises. *)
Lemma display_message_returns self current_time message data :
  exists self' tr,
    display_message current_time message data self = (Return tt, self', tr).
Proof.
  destruct (display_update_interval self <=? current_time - last_update_time self)%float
    eqn:E.
  - destruct (display_message_due self message data E) as [tr [H _]]. eauto.
  - rewrite (display_message_not_due self message data E). eauto.
Qed.

(** The status line of a rendering call. *)
Lemma display_message_due_status self current_time message data :
  (display_update_interval self <=? current_time - last_update_time self)%float = true ->
  exists rest,
    snd (display_message current_time message data self) = OsClear :: rest
    /\ In (Print [Lit "STATUS: "; Lit message]) rest.
Proof.
  intros E. unfold_display. rewrite E.
  destruct data as [[[m|] [x|] [ts|]]|]; simpl;
    try destruct (0 <? x)%float; simpl; eexists; (split; [reflexivity | ]);
    simpl; tauto.
Qed.

(** C8. A call of [display_message] made strictly less than
    [display_update_interval] after the last committed update renders nothing
    and leaves the object, in particular [current_message] and
    [last_update_time], unchanged.  A call made at or after the interval
    renders -- it clears the screen and prints, among its lines, the status
    line of its message -- and commits its message and its time to the two
    fields, leaving the other two as they were.  A call that renders anything
    or changes the object was made at or after the interval. *)
Theorem display_message_interval :
  forall (self : LCDDisplay) (current_time : float) (message : string)
         (data : option display_data) o self' tr,
    display_message current_time message data self = (o, self', tr) ->
    ((current_time - last_update_time self <? display_update_interval self)%float = true ->
     o = Return tt /\ self' = self /\ tr = [])
    /\ ((display_update_interval self <=? current_time - last_update_time self)%float = true ->
        o = Return tt
        /\ self' = committed self message current_time
        /\ current_message self' = message
        /\ last_update_time self' = current_time
        /\ exists rest,
             tr = OsClear :: rest /\ In (Print [Lit "STATUS: "; Lit message]) rest)
    /\ (tr <> [] \/ self' <> self ->
        (display_update_interval self <=? current_time - last_update_time self)%float = true
        /\ current_message self' = message /\ last_update_time self' = current_time).
Proof.
  intros self current_time message data o self' tr H.
  destruct (display_update_interval self <=? current_time - last_update_time self)%float
    eqn:E.
  - destruct (display_message_due self message data E) as [tr0 [H0 _]].
    destruct (display_message_due_status self message data E) as (rest & Hr & Hs).
    rewrite H0 in Hr. cbn [snd] in Hr. injection Hr as Hr.
    rewrite H0 in H. inversion H; subst. split; [ | split].
    + intros L. apply ltb_leb_false in L. congruence.
    + intros _. repeat split. exists rest. split; [reflexivity | exact Hs].
    + intros _. repeat split.
  - rewrite (display_message_not_due self message data E) in H.
    inversion H; subst. split; [ | split].
    + intros _. repeat split.
    + discriminate.
    + intros [C | C]; congruence.
Qed.

Lemma update_display_unfold current_time timestamp intrusion_detected motion
      distance (self : DisplayManager) :
  update_display current_time timestamp intrusion_detected motion distance self
  = (in_lcd (display_message current_time
               (if intrusion_detected then INTRUSION_MESSAGE else SAFE_MESSAGE)
               (Some (rendered_data intrusion_detected distance timestamp))) ;;
     modify (fun self => mkDisplayManager (lcd self) (display_count self + 1))) self.
Proof.
  unfold update_display, show_intrusion_alert, show_area_safe, rendered_data.
  destruct intrusion_detected; reflexivity.
Qed.

(** C9. [update_display] hands [display_message] a dict whose ['motion'] flag
    is [intrusion_detected] (with the intrusion message when it is true, the
    safe message when it is false); the [motion] argument does not change
    what the call does. *)
Theorem update_display_motion_flag :
  forall (current_time : float) (timestamp : string)
         (intrusion_detected motion : bool) (distance : float) (self : DisplayManager),
    update_display current_time timestamp intrusion_detected motion distance self
    = (in_lcd (display_message current_time
                 (if intrusion_detected then INTRUSION_MESSAGE else SAFE_MESSAGE)
                 (Some (rendered_data intrusion_detected distance timestamp))) ;;
       modify (fun self => mkDisplayManager (lcd self) (display_count self + 1))) self
    /\ (forall motion',
          update_display current_time timestamp intrusion_detected motion' distance self
          = update_display current_time timestamp intrusion_detected motion distance self).
Proof.
  intros current_time timestamp intrusion_detected motion distance self. split.
  - apply update_display_unfold.
  - intros motion'. rewrite !update_display_unfold. reflexivity.
Qed.

(** C10. When [display_message] renders a dict that holds a distance, it
    prints the numeric distance line if and only if [distance > 0], and the
    line "Distance: No valid reading" otherwise.  A reading of exactly 0 cm,
    which the diagnostic log of the monitoring loop prints as a number (its
    test is [distance >= 0]), is therefore displayed as not valid. *)
Theorem display_message_distance :
  forall (self : LCDDisplay) (current_time : float) (message : string)
         (d : display_data) (x : float) o self' tr,
    data_distance d = Some x ->
    (display_update_interval self <=? current_time - last_update_time self)%float = true ->
    display_message current_time message (Some d) self = (o, self', tr) ->
    (In (distance_line x) tr <-> (0 <? x)%float = true) /\
    (In no_reading_line tr <-> (0 <? x)%float = false) /\
    (x = 0%float ->
     In no_reading_line tr /\ distance_valid x = true /\ dist_str x = Fixed 2 x).
Proof.
  intros self current_time message d x o self' tr D E H.
  assert (G : (In (distance_line x) tr <-> (0 <? x)%float = true) /\
              (In no_reading_line tr <-> (0 <? x)%float = false)).
  { revert H. unfold_display. rewrite E.
    destruct d as [[m|] dist [ts|]]; simpl in D; subst dist; simpl;
      destruct (0 <? x)%float; simpl; intros H; inversion H; subst; clear H;
      unfold distance_line, no_reading_line; simpl;
      (split; split; intros K; try discriminate; try tauto;
       repeat (destruct K as [K | K]; [try discriminate K | ]); try tauto;
       exfalso; exact K). }
  destruct G as [G1 G2]. split; [exact G1 | split; [exact G2 | ]].
  intros X. subst x. split; [apply G2; reflexivity | split; reflexivity].
Qed.

(** ** Reasoning about the monad *)

Lemma bind_inv {S A B} (m : M S A) (k : A -> M S B) s o s' tr :
  bind m k s = (o, s', tr) ->
  (exists a s1 t1 t2,
      m s = (Return a, s1, t1) /\ k a s1 = (o, s', t2) /\ tr = t1 ++ t2)
  \/ (exists e, m s = (Raise e, s', tr) /\ o = Raise e)
  \/ (m s = (Pending, s', tr) /\ o = Pending).
Proof.
  unfold bind. destruct (m s) as [[[a | e | ] s1] t1].
  - destruct (k a s1) as [[o2 s2] t2] eqn:K. intros H. inversion H; subst.
    left. exists a, s1, t1, t2. auto.
  - intros H. inversion H; subst. right. left. exists e. auto.
  - intros H. inversion H; subst. right. right. auto.
Qed.

Lemma bind_return {S A B} (m : M S A) (k : A -> M S B) s a s1 t1 :
  m s = (Return a, s1, t1) ->
  bind m k s = (let '(o, s2, t2) := k a s1 in (o, s2, t1 ++ t2)).
Proof. intros H. unfold bind. rewrite H. reflexivity. Qed.

Lemma try_except_inv {S A} (m : M S A) h s o s' tr :
  try_except m h s = (o, s', tr) ->
  (exists e s1 t1 k t2,
      m s = (Raise e, s1, t1) /\ h e = Some k /\ k s1 = (o, s', t2) /\ tr = t1 ++ t2)
  \/ (m s = (o, s', tr) /\ forall e, o = Raise e -> h e = None).
Proof.
  unfold try_except. destruct (m s) as [[[a | e | ] s1] t1].
  - intros H. inversion H; subst. right. split; [reflexivity | discriminate].
  - destruct (h e) as [k | ] eqn:He.
    + destruct (k s1) as [[o2 s2] t2] eqn:K. intros H. inversion H; subst.
      left. exists e, s1, t1, k, t2. auto.
    + intros H. inversion H; subst. right. split; [reflexivity | ].
      intros e' E. inversion E; subst. exact He.
  - intros H. inversion H; subst. right. split; [reflexivity | discriminate].
Qed.

Lemma try_finally_inv {S A} (m : M S A) (f : M S unit) s o s' tr :
  try_finally m f s = (o, s', tr) ->
  o <> Pending ->
  exists o1 s1 t1 o2 t2,
    m s = (o1, s1, t1) /\ o1 <> Pending /\ f s1 = (o2, s', t2) /\ tr = t1 ++ t2 /\
    match o2 with
    | Return _ => o = o1
    | Raise e => o = Raise e
    | Pending => False
    end.
Proof.
  unfold try_finally. intros H NP.
  destruct (m s) as [[o1 s1] t1].
  destruct o1 as [a | e | ]; try (inversion H; subst; congruence);
    destruct (f s1) as [[[u | e2 | ] s2] t2] eqn:F; inversion H; subst;
    try congruence;
    eexists _, s1, t1, _, t2; (split; [reflexivity | ]);
    (split; [discriminate | ]); (split; [exact F | ]); (split; reflexivity).
Qed.

(** ** The alert manager and the display inside a cycle *)

Lemma update_status_run (intrusion : bool) (am : AlertManager) :
  exists out tr,
    update_status intrusion am
    = (Return tt, mkAlertManager (fst (update (alert_state am) intrusion)) out, tr)
    /\ forallb steady tr = true.
Proof.
  destruct am as [[ | ] out], intrusion; cbn; eexists _, _; split; reflexivity.
Qed.

Lemma update_display_run current_time timestamp intrusion motion distance
      (dm : DisplayManager) :
  exists l tr,
    update_display current_time timestamp intrusion motion distance dm
    = (Return tt, mkDisplayManager l (display_count dm + 1), tr)
    /\ forallb steady tr = true.
Proof.
  rewrite update_display_unfold.
  unfold in_lcd, zoom, bind, modify.
  destruct (display_update_interval (lcd dm) <=? current_time - last_update_time (lcd dm))%float
    eqn:E.
  - destruct (display_message_due (lcd dm)
                (if intrusion then INTRUSION_MESSAGE else SAFE_MESSAGE)
                (Some (rendered_data intrusion distance timestamp)) E) as [tr [H St]].
    rewrite H. cbn. eexists _, _. split; [reflexivity | ].
    rewrite app_nil_r. exact St.
  - rewrite (display_message_not_due (lcd dm) _ _ E). cbn.
    eexists _, _. split; reflexivity.
Qed.

(** ** One cycle of the monitoring loop *)

Lemma initialized_inv (s : Self) :
  initialized s = true ->
  exists sm am dm, s = mkIDS (Some sm) (Some am) (Some dm) (running s) (cycle_count s).
Proof.
  destruct s as [[sm | ] [am | ] [dm | ] r c]; try discriminate.
  intros _. exists sm, am, dm. reflexivity.
Qed.

Ltac unfold_attrs :=
  unfold in_sensors, in_alerts, in_display, with_attr, bind;
  cbn [get modify read_sensors ret raise sensor_manager alert_manager display_manager
       set_sensor_manager set_alert_manager set_display_manager set_cycle_count
       set_running running cycle_count].

(** A cycle whose acquisition succeeds runs to its end. *)
Lemma monitor_cycle_reading i sm am dm r c m d te h :
  acquired i = Reading m d te h ->
  exists out l tr,
    monitor_cycle i (mkIDS (Some sm) (Some am) (Some dm) r c)
    = (Return (check_intrusion m d DISTANCE_THRESHOLD),
       mkIDS (Some sm)
             (Some (mkAlertManager
                      (fst (update (alert_state am)
                              (check_intrusion m d DISTANCE_THRESHOLD))) out))
             (Some (mkDisplayManager l (display_count dm + 1))) r (c + 1),
       tr)
    /\ forallb steady tr = true.
Proof.
  intros H. unfold monitor_cycle.
  destruct (update_status_run (check_intrusion m d DISTANCE_THRESHOLD) am)
    as (out & t1 & U & S1).
  destruct (update_display_run (clock i) (stamp i)
              (check_intrusion m d DISTANCE_THRESHOLD) m d dm) as (l & t2 & V & S2).
  unfold_attrs. rewrite H. unfold_attrs. rewrite U. unfold_attrs. rewrite V. unfold_attrs.
  destruct (c mod 10 =? 0); cbn; eexists _, _, _; (split; [reflexivity | ]);
    rewrite ?forallb_app, ?S1, ?S2; reflexivity.
Qed.

(** A cycle whose acquisition fails stops at [read_sensors]. *)
Lemma monitor_cycle_failed i (s : Self) sm :
  sensor_manager s = Some sm ->
  monitor_cycle i s
  = match acquired i with
    | Reading _ _ _ _ => monitor_cycle i s
    | SensorError msg => (Raise (Exception msg), s, [])
    | SensorInterrupt => (Raise KeyboardInterrupt, s, [])
    end.
Proof.
  intros H. destruct (acquired i) eqn:A; [reflexivity | | ];
    unfold monitor_cycle; unfold_attrs; rewrite H, A; cbn;
    destruct s as [x am dm r c]; cbn in H; subst x; destruct sm; reflexivity.
Qed.

(** What a pass of the loop can do to an initialised system. *)
Lemma monitor_pass_inv i (s : Self) o s' tr :
  initialized s = true ->
  monitor_pass i s = (o, s', tr) ->
  initialized s' = true /\ forallb steady tr = true /\ o <> Pending
  /\ (o = Return true -> running s' = false)
  /\ (o = Return false -> running s' = running s).
Proof.
  intros I. destruct (initialized_inv s I) as (sm & am & dm & E).
  rewrite E. clear E I. generalize (running s) (cycle_count s). intros r c.
  unfold monitor_pass, try_except.
  destruct (acquired i) as [m d te h | msg | ] eqn:A.
  - destruct (monitor_cycle_reading i sm am dm r c A) as (out & l & t0 & C & St).
    rewrite (bind_return _ _ _ C).
    destruct (delay_fault i) as [[ | msg | code] | ];
      try (destruct (retry_fault i) as [[ | msg' | code'] | ]);
      cbn; intros H; inversion H; subst; cbn;
      rewrite ?forallb_app, ?St; cbn;
      repeat split; try discriminate; congruence.
  - unfold bind. rewrite (monitor_cycle_failed i (mkIDS (Some sm) (Some am) (Some dm) r c) eq_refl), A.
    destruct (retry_fault i) as [[ | msg' | code'] | ];
      cbn; intros H; inversion H; subst; cbn;
      repeat split; try discriminate; congruence.
  - unfold bind. rewrite (monitor_cycle_failed i (mkIDS (Some sm) (Some am) (Some dm) r c) eq_refl), A.
    cbn; intros H; inversion H; subst; cbn;
      repeat split; try discriminate; congruence.
Qed.

(** ** The loop *)

Lemma monitor_loop_inv feed :
  forall (s : Self) o s' tr,
    initialized s = true ->
    monitor_loop feed s = (o, s', tr) ->
    initialized s' = true /\ forallb steady tr = true
    /\ (o <> Pending -> running s' = false \/ exists e, o = Raise e).
Proof.
  induction feed as [ | i rest IH]; intros s o s' tr I H.
  - cbn in H. unfold bind, get in H. destruct (running s) eqn:R; cbn in H;
      inversion H; subst; repeat split; auto. congruence.
  - cbn [monitor_loop] in H. unfold bind at 1 in H. unfold get in H.
    destruct (running s) eqn:R.
    + destruct (monitor_pass i s) as [[o1 s1] t1] eqn:P.
      destruct (monitor_pass_inv i s I P) as (I1 & St1 & NP & Brk & Cont).
      unfold bind in H. rewrite P in H.
      destruct o1 as [[ | ] | e | ]; cbn in H.
      * inversion H; subst. rewrite !app_nil_r. repeat split; auto.
      * destruct (monitor_loop rest s1) as [[o2 s2] t2] eqn:L.
        destruct (IH _ _ _ _ I1 L) as (I2 & St2 & Fin).
        inversion H; subst. cbn. rewrite forallb_app, St1, St2. repeat split; auto.
      * inversion H; subst. cbn. rewrite St1. repeat split; eauto.
      * congruence.
    + cbn in H. inversion H; subst. repeat split; auto.
Qed.

(** The screens of the display leave the object as it is. *)
Lemma show_startup_run fault (s : Self) :
  initialized s = true ->
  exists tr,
    in_display (show_startup fault) s
    = (match fault with Some e => Raise e | None => Return tt end, s, tr)
    /\ forallb steady tr = true.
Proof.
  intros I. destruct (initialized_inv s I) as (sm & am & dm & E). rewrite E.
  destruct dm as [l n]. destruct fault as [e | ]; cbn; eexists; split; reflexivity.
Qed.

Lemma show_error_run code description (s : Self) :
  initialized s = true ->
  exists tr,
    in_display (show_error code description) s = (Return tt, s, tr)
    /\ forallb steady tr = true /\ shows_error tr = true.
Proof.
  intros I. destruct (initialized_inv s I) as (sm & am & dm & E). rewrite E.
  destruct dm as [l n]. cbn. eexists; repeat split; reflexivity.
Qed.

Lemma monitor_restricted_area_inv startup_fault feed (s : Self) o s' tr :
  initialized s = true ->
  monitor_restricted_area startup_fault feed s = (o, s', tr) ->
  initialized s' = true /\ forallb steady tr = true.
Proof.
  intros I H. unfold monitor_restricted_area in H.
  destruct (show_startup_run startup_fault s I) as (t0 & SU & St0).
  unfold say at 1 2 in H. unfold bind at 1 2 in H. unfold emit in H.
  unfold bind at 1 in H. rewrite SU in H.
  destruct startup_fault as [e | ].
  - inversion H; subst. cbn. rewrite St0. auto.
  - destruct (try_except (monitor_loop feed) _ s) as [[o1 s1] t1] eqn:T.
    inversion H; subst. cbn. rewrite forallb_app, St0. cbn.
    apply try_except_inv in T.
    destruct T as [(e & s2 & t2 & k & t3 & L & Hk & K & ->) | [L _]].
    + destruct (monitor_loop_inv feed s I L) as (I2 & St2 & _).
      destruct e as [ | msg | code]; try discriminate. cbn in Hk. inversion Hk; subst k.
      destruct (show_error_run "RUNTIME_ERROR" msg s2 I2) as (t4 & SE & St4 & _).
      unfold print, emit in K. unfold bind in K. rewrite SE in K.
      inversion K; subst. rewrite forallb_app, St2. cbn. rewrite St4. auto.
    + destruct (monitor_loop_inv feed s I L) as (I2 & St2 & _). auto.
Qed.

Lemma steady_no_lifecycle (tr : trace) :
  forallb steady tr = true -> acquisitions tr = [] /\ releases tr = [].
Proof.
  induction tr as [ | e tr IH]; [auto | ].
  cbn [forallb]. intros H. apply andb_true_iff in H. destruct H as [He Ht].
  destruct (IH Ht) as [IA IR].
  destruct e; cbn in He; try discriminate; cbn; auto.
Qed.

Lemma acquisitions_app (t1 t2 : trace) :
  acquisitions (t1 ++ t2) = acquisitions t1 ++ acquisitions t2.
Proof.
  induction t1 as [ | e t1 IH]; [reflexivity | ].
  destruct e; cbn; rewrite ?IH; reflexivity.
Qed.

Lemma releases_app (t1 t2 : trace) :
  releases (t1 ++ t2) = releases t1 ++ releases t2.
Proof.
  induction t1 as [ | e t1 IH]; [reflexivity | ].
  destruct e; cbn; rewrite ?IH; reflexivity.
Qed.

Lemma hardware_app (t1 t2 : trace) :
  hardware (t1 ++ t2) = hardware t1 ++ hardware t2.
Proof. apply filter_app. Qed.

(** ** Shutdown *)

(** [cleanup] on an initialised system: the alert output is forced off, the
    components are cleaned up, and the call ends in [sys.exit(0)]. *)
Lemma cleanup_run (s : Self) :
  initialized s = true ->
  exists s' tr,
    cleanup s = (Raise (SystemExit 0), s', tr)
    /\ initialized s' = true
    /\ system_alert_output s' = Some false
    /\ hardware tr = shutdown_sequence
    /\ acquisitions tr = []
    /\ releases tr = [Alerts; Sensors; Display].
Proof.
  intros I. destruct (initialized_inv s I) as (sm & am & dm & E). rewrite E.
  destruct dm as [l n]. cbn. eexists _, _. repeat split; reflexivity.
Qed.

(** The body of [run], before its [finally]. *)
Lemma run_body_inv startup_fault feed (s : Self) o s' tr :
  initialized s = true ->
  try_except
    (monitor_restricted_area startup_fault feed)
    (on_interrupt_or_exception
       (say (nl ++ "[SYSTEM] System interrupted by user"))
       (fun e => print [Lit (nl ++ "[ERROR] Unexpected error: "); Lit e])) s
  = (o, s', tr) ->
  initialized s' = true /\ forallb steady tr = true.
Proof.
  intros I H. apply try_except_inv in H.
  destruct H as [(e & s1 & t1 & k & t2 & B & Hk & K & ->) | [B _]].
  - destruct (monitor_restricted_area_inv startup_fault feed s I B) as [I1 St1].
    destruct e as [ | msg | code]; cbn in Hk; inversion Hk; subst k;
      cbn in K; inversion K; subst; rewrite forallb_app, St1; auto.
  - exact (monitor_restricted_area_inv startup_fault feed s I B).
Qed.

(** However [run] ends -- the loop stopped, an error escaped it, or the
    operator interrupted it -- [cleanup] runs. *)
Lemma run_shutdown :
  forall (startup_fault : option exn) (feed : list cycle_input) (s : Self) o s' tr,
    initialized s = true ->
    run startup_fault feed s = (o, s', tr) ->
    o <> Pending ->
    o = Raise (SystemExit 0)
    /\ system_alert_output s' = Some false
    /\ exists body,
         releases body = []
         /\ hardware tr = hardware body ++ shutdown_sequence.
Proof.
  intros startup_fault feed s o s' tr I H NP.
  unfold run in H. apply try_finally_inv in H; [ | exact NP].
  destruct H as (o1 & s1 & t1 & o2 & t2 & B & NP1 & C & -> & F).
  destruct (run_body_inv startup_fault feed s I B) as [I1 St1].
  destruct (cleanup_run s1 I1) as (s2 & t3 & C' & I2 & Off & Hw & _ & _).
  rewrite C' in C. inversion C; subst. split; [exact F | ].
  split; [exact Off | ].
  exists t1. split.
  - apply (steady_no_lifecycle t1 St1).
  - rewrite hardware_app, Hw. reflexivity.
Qed.

(** ** The whole process *)

(** The system as a successful [__init__] leaves it. *)
Definition started : Self :=
  mkIDS (Some SensorPort) (Some AlertManager_init)
        (Some (fst (DisplayManager_init false))) true 0.

Lemma init_run :
  exists tr,
    init None blank = (Return tt, started, tr)
    /\ hardware tr = [Acquire Sensors; Acquire Alerts; Acquire Display;
                      FlaskInit; FlaskThreadStart].
Proof. cbn. eexists. split; reflexivity. Qed.

Lemma program_started startup_fault feed o s' tr :
  program None startup_fault feed = (o, s', tr) ->
  exists t1,
    run startup_fault feed started = (o, s', t1)
    /\ hardware tr
       = [GpioSetMode; Acquire Sensors; Acquire Alerts; Acquire Display;
          FlaskInit; FlaskThreadStart] ++ hardware t1.
Proof.
  unfold program, main. destruct init_run as (t0 & In0 & Hw0).
  unfold say, emit. unfold bind at 1 2. unfold bind at 1. rewrite In0.
  destruct (run startup_fault feed started) as [[o1 s1] t1] eqn:R.
  intros H. inversion H; subst. exists t1. split; [reflexivity | ].
  change (GpioSetMode :: Print [Lit "[SYSTEM] GPIO mode set to BCM numbering"] :: t0 ++ t1)
    with ([GpioSetMode; Print [Lit "[SYSTEM] GPIO mode set to BCM numbering"]]
            ++ (t0 ++ t1)).
  rewrite !hardware_app, Hw0. reflexivity.
Qed.

(** A failure of [__init__], by the call that fails: before the display
    manager exists the handler itself fails on [self.display_manager]; after
    it, the handler shows the error, runs [cleanup], and [cleanup] ends the
    process with [sys.exit(0)]. *)
Lemma program_init_fault step msg startup_fault feed :
  exists s' tr,
    program (Some (step, msg)) startup_fault feed
    = (match step with
       | AtSensorManager | AtAlertManager => Raise (attribute_error "display_manager")
       | AtFlaskInit | AtFlaskThread => Raise (SystemExit 0)
       end, s', tr)
    /\ match step with
       | AtSensorManager | AtAlertManager =>
           alert_manager s' = None /\ shows_error tr = false /\ releases tr = []
       | AtFlaskInit | AtFlaskThread =>
           system_alert_output s' = Some false /\ shows_error tr = true
           /\ exists body, releases body = []
                           /\ hardware tr = hardware body ++ shutdown_sequence
       end.
Proof.
  destruct step; cbn; eexists _, _; (split; [reflexivity | ]); repeat split;
    try reflexivity.
  - exists [GpioSetMode; Acquire Sensors; Acquire Alerts; Acquire Display].
    split; reflexivity.
  - exists [GpioSetMode; Acquire Sensors; Acquire Alerts; Acquire Display; FlaskInit].
    split; reflexivity.
Qed.

(** C4. On every way the process ends, the alert output is not left active.
    Whenever the process ends after the three managers were constructed --
    the loop stopped, an error escaped it, the operator interrupted it, or
    [__init__] failed past the managers -- [cleanup] has run: the process
    ends in [sys.exit(0)], the alert output is off whatever the alert state
    was, and the command that switches it off precedes the clean-up of every
    component. *)
Theorem shutdown_deactivates_alert :
  forall (init_fault : option (init_step * string)) (startup_fault : option exn)
         (feed : list cycle_input) o s' tr,
    program init_fault startup_fault feed = (o, s', tr) ->
    o <> Pending ->
    system_alert_output s' <> Some true
    /\ (initialized s' = true ->
        o = Raise (SystemExit 0)
        /\ system_alert_output s' = Some false
        /\ exists body,
             releases body = []
             /\ hardware tr = hardware body ++ shutdown_sequence).
Proof.
  intros init_fault startup_fault feed o s' tr H NP.
  destruct init_fault as [[step msg] | ].
  - destruct (program_init_fault step msg startup_fault feed) as (s1 & t1 & P & Q).
    rewrite P in H. inversion H; subst. clear H P.
    destruct step; cbn in Q.
    + destruct Q as (N & _ & _). unfold system_alert_output, initialized.
      rewrite N. cbn. split; [discriminate | ]. destruct (sensor_manager s'); discriminate.
    + destruct Q as (N & _ & _). unfold system_alert_output, initialized.
      rewrite N. cbn. split; [discriminate | ]. destruct (sensor_manager s'); discriminate.
    + destruct Q as (Off & _ & B). rewrite Off. split; [discriminate | auto].
    + destruct Q as (Off & _ & B). rewrite Off. split; [discriminate | auto].
  - destruct (@program_started startup_fault feed o s' tr H) as (t1 & R & Hw).
    destruct (@run_shutdown startup_fault feed started o s' t1 eq_refl R NP)
      as (Ex & Off & body & Rb & Hb).
    rewrite Off. split; [discriminate | ]. intros _.
    split; [exact Ex | ]. split; [reflexivity | ].
    exists ([GpioSetMode; Acquire Sensors; Acquire Alerts; Acquire Display;
             FlaskInit; FlaskThreadStart] ++ body).
    split.
    + rewrite releases_app, Rb. reflexivity.
    + rewrite Hw, Hb, hardware_app. cbn. reflexivity.
Qed.

(** ** The verdict and the alert state *)

Lemma check_intrusion_true_iff (motion : bool) (distance threshold : float) :
  check_intrusion motion distance threshold = true
  <-> motion = true /\ distance_valid distance = true
      /\ (distance <? threshold)%float = true.
Proof.
  unfold check_intrusion. rewrite !andb_true_iff. tauto.
Qed.

(** C1. In a cycle whose acquisition returns a reading, the verdict is
    computed without raising, and it is true if and only if the motion flag
    is true, the distance is valid and the distance is strictly below the
    threshold; with a distance that is not valid the verdict is false. *)
Theorem cycle_verdict :
  forall (s : Self) (i : cycle_input) (motion : bool) (distance : float)
         (temperature humidity : option float),
    initialized s = true ->
    acquired i = Reading motion distance temperature humidity ->
    exists verdict s' tr,
      monitor_cycle i s = (Return verdict, s', tr)
      /\ (verdict = true
          <-> motion = true /\ distance_valid distance = true
              /\ (distance <? DISTANCE_THRESHOLD)%float = true)
      /\ (distance_valid distance = false -> verdict = false).
Proof.
  intros s i motion distance temperature humidity I A.
  destruct (initialized_inv s I) as (sm & am & dm & E). rewrite E.
  destruct (monitor_cycle_reading i sm am dm (running s) (cycle_count s) A)
    as (out & l & tr & C & _).
  exists (check_intrusion motion distance DISTANCE_THRESHOLD). eexists _, tr.
  split; [exact C | ]. split.
  - apply check_intrusion_true_iff.
  - intros V. unfold check_intrusion. rewrite V. apply andb_false_r.
Qed.

Lemma update_all_fold (vs : list bool) :
  forall am : AlertManager,
  exists am' tr,
    update_all vs am = (Return tt, am', tr)
    /\ alert_state am' = fold_table (alert_state am) vs.
Proof.
  induction vs as [ | v vs IH]; intros am.
  - exists am, []. split; reflexivity.
  - destruct (update_status_run v am) as (out & t1 & U & _).
    destruct (IH (mkAlertManager (fst (update (alert_state am) v)) out))
      as (am' & t2 & A & F).
    exists am', (t1 ++ t2). cbn [update_all]. rewrite (bind_return _ _ _ U), A.
    split; [reflexivity | exact F].
Qed.

Lemma monitor_pass_quiet i sm am dm c :
  quiet i = true ->
  exists am' dm' c' tr,
    monitor_pass i (mkIDS (Some sm) (Some am) (Some dm) true c)
    = (Return false, mkIDS (Some sm) (Some am') (Some dm') true c', tr)
    /\ alert_state am' = fold_table (alert_state am) (verdicts [i]).
Proof.
  unfold quiet. intros Q. unfold monitor_pass, try_except. cbn [verdicts].
  destruct (acquired i) as [m d te h | msg | ] eqn:A; try discriminate.
  - destruct (monitor_cycle_reading i sm am dm true c A) as (out & l & t0 & C & _).
    rewrite (bind_return _ _ _ C).
    destruct (delay_fault i); try discriminate. cbn.
    eexists _, _, _, _. split; reflexivity.
  - unfold bind. rewrite (monitor_cycle_failed i (mkIDS (Some sm) (Some am) (Some dm) true c) eq_refl), A.
    destruct (delay_fault i); try discriminate.
    destruct (retry_fault i); try discriminate. cbn.
    eexists _, _, _, _. split; reflexivity.
Qed.

Lemma verdicts_cons i rest : verdicts (i :: rest) = verdicts [i] ++ verdicts rest.
Proof. cbn. destruct (acquired i); reflexivity. Qed.

Lemma monitor_loop_quiet feed :
  forallb quiet feed = true ->
  forall sm am dm c,
  exists am' dm' c' tr,
    monitor_loop feed (mkIDS (Some sm) (Some am) (Some dm) true c)
    = (Pending, mkIDS (Some sm) (Some am') (Some dm') true c', tr)
    /\ alert_state am' = fold_table (alert_state am) (verdicts feed).
Proof.
  induction feed as [ | i rest IH]; intros Q sm am dm c.
  - exists am, dm, c, []. split; reflexivity.
  - cbn [forallb] in Q. apply andb_true_iff in Q. destruct Q as [Qi Qr].
    destruct (monitor_pass_quiet i sm am dm c Qi) as (am1 & dm1 & c1 & t1 & P & F1).
    destruct (IH Qr sm am1 dm1 c1) as (am2 & dm2 & c2 & t2 & L & F2).
    exists am2, dm2, c2, (t1 ++ t2). split.
    + cbn [monitor_loop]. unfold bind at 1. unfold get. cbn [running].
      rewrite (bind_return _ _ _ P). rewrite L. reflexivity.
    + rewrite verdicts_cons. unfold fold_table in *.
      rewrite fold_left_app, <- F1. exact F2.
Qed.

(** C2. [update] follows the four rows of the table; applying
    [update_status] to each verdict of a sequence, from the initial manager,
    ends in the state that the fold of the table over the sequence reaches
    from SAFE; and in the running program the alert state after a sequence of
    undisturbed passes is that fold over the verdicts of the passes whose
    acquisition succeeded. *)
Theorem alert_state_is_fold_of_table :
  (update SAFE true = (ALERT, ActivateOutput)
   /\ update ALERT true = (ALERT, ReassertOutput)
   /\ update ALERT false = (SAFE, DeactivateOutput)
   /\ update SAFE false = (SAFE, NoCommand))
  /\ (forall vs : list bool,
        exists am tr,
          update_all vs AlertManager_init = (Return tt, am, tr)
          /\ alert_state am = fold_table SAFE vs)
  /\ (forall feed : list cycle_input,
        forallb quiet feed = true ->
        exists s tr,
          program None None feed = (Pending, s, tr)
          /\ system_alert_state s = Some (fold_table SAFE (verdicts feed))).
Proof.
  split; [repeat split | ]. split.
  - intros vs. apply (update_all_fold vs AlertManager_init).
  - intros feed Q.
    destruct (monitor_loop_quiet feed Q SensorPort AlertManager_init
                (fst (DisplayManager_init false)) 0)
      as (am & dm & c & t & L & F).
    unfold program, main. destruct init_run as (t0 & In0 & _).
    unfold say, emit. unfold bind at 1 2. unfold bind at 1. rewrite In0.
    unfold run, try_finally, try_except at 1, monitor_restricted_area.
    unfold say, emit. unfold bind at 1 2. unfold bind at 1.
    destruct (show_startup_run None started eq_refl) as (t1 & SU & _).
    rewrite SU. unfold try_except. unfold started at 1. rewrite L.
    eexists _, _. split; [reflexivity | ].
    unfold system_alert_state. cbn. rewrite F. reflexivity.
Qed.

(** ** Failures of the acquisition *)

(** C3. When [read_sensors()] raises, the cycle stops there: no verdict is
    computed and nothing of the system changes (alert state and cycle counter
    included); the handler prints the error and pauses for one second, the
    pass ends without [break], and the loop goes on with the next pass. *)
Theorem failed_acquisition_aborts_cycle :
  forall (s : Self) (i : cycle_input) (msg : string) (sm : SensorManager),
    sensor_manager s = Some sm ->
    acquired i = SensorError msg ->
    retry_fault i = None ->
    monitor_cycle i s = (Raise (Exception msg), s, [])
    /\ monitor_pass i s = (Return false, s, failed_cycle_trace msg)
    /\ (forall rest,
          running s = true ->
          monitor_loop (i :: rest) s
          = (let '(o, s', tr) := monitor_loop rest s in
             (o, s', failed_cycle_trace msg ++ tr))).
Proof.
  intros s i msg sm Hs A R.
  assert (C : monitor_cycle i s = (Raise (Exception msg), s, [])).
  { rewrite (monitor_cycle_failed i s Hs), A. reflexivity. }
  assert (P : monitor_pass i s = (Return false, s, failed_cycle_trace msg)).
  { unfold monitor_pass, try_except. unfold bind at 1. rewrite C, R. reflexivity. }
  split; [exact C | ]. split; [exact P | ].
  intros rest Run. cbn [monitor_loop]. unfold bind at 1. unfold get. rewrite Run.
  rewrite (bind_return _ _ _ P).
  destruct (monitor_loop rest s) as [[o s'] tr]. reflexivity.
Qed.

(** C7. A reading whose temperature or humidity is [None] is handled as the
    reading with 0.0 in its place: the cycle is the same, it runs to its end
    (the verdict is computed, the alert state is updated with it, the display
    is updated, the cycle counter advances), and the pass is not aborted. *)
Theorem missing_optional_fields_default :
  forall (s : Self) (i : cycle_input) (motion : bool) (distance : float)
         (temperature humidity : option float),
    initialized s = true ->
    acquired i = Reading motion distance temperature humidity ->
    let verdict := check_intrusion motion distance DISTANCE_THRESHOLD in
    or_zero None = Some 0.0%float
    /\ monitor_cycle i s
       = monitor_cycle
           (with_acquired (Reading motion distance (or_zero temperature)
                             (or_zero humidity)) i) s
    /\ (exists s' tr,
          monitor_cycle i s = (Return verdict, s', tr)
          /\ system_alert_state s'
             = option_map (fun state => fst (update state verdict)) (system_alert_state s)
          /\ system_display_count s'
             = option_map (fun n => n + 1) (system_display_count s)
          /\ cycle_count s' = cycle_count s + 1)
    /\ (delay_fault i = None ->
        exists s' tr, monitor_pass i s = (Return false, s', tr)).
Proof.
  intros s i motion distance temperature humidity I A verdict.
  destruct (initialized_inv s I) as (sm & am & dm & E).
  destruct (monitor_cycle_reading i sm am dm (running s) (cycle_count s) A)
    as (out & l & tr & C & _).
  split; [reflexivity | ]. split; [ | split].
  - rewrite E. unfold monitor_cycle. unfold_attrs.
    cbn [with_acquired acquired clock stamp]. rewrite A.
    destruct temperature, humidity; reflexivity.
  - rewrite E. eexists _, tr. split; [exact C | ].
    unfold system_alert_state, system_display_count. cbn. repeat split.
  - intros D. rewrite E. unfold monitor_pass, try_except.
    rewrite (bind_return _ _ _ C), D. cbn. eexists _, _. reflexivity.
Qed.

(** ** Exit status and order of the clean-up *)

Lemma acquisitions_hardware (tr : trace) : acquisitions (hardware tr) = acquisitions tr.
Proof.
  unfold hardware. induction tr as [ | e tr IH]; [reflexivity | ].
  destruct e; cbn; rewrite ?IH; reflexivity.
Qed.

Lemma releases_hardware (tr : trace) : releases (hardware tr) = releases tr.
Proof.
  unfold hardware. induction tr as [ | e tr IH]; [reflexivity | ].
  destruct e; cbn; rewrite ?IH; reflexivity.
Qed.

(** A run that ends has constructed nothing and has cleaned up the alert
    manager, the sensor manager and the display manager, in this order. *)
Lemma run_lifecycle startup_fault feed (s : Self) o s' tr :
  initialized s = true ->
  run startup_fault feed s = (o, s', tr) ->
  o <> Pending ->
  o = Raise (SystemExit 0)
  /\ acquisitions tr = [] /\ releases tr = [Alerts; Sensors; Display].
Proof.
  intros I H NP.
  destruct (@run_shutdown startup_fault feed s o s' tr I H NP) as (Ex & _ & body & Rb & Hw).
  split; [exact Ex | ].
  unfold run in H. apply try_finally_inv in H; [ | exact NP].
  destruct H as (o1 & s1 & t1 & o2 & t2 & B & NP1 & C & -> & F).
  destruct (run_body_inv startup_fault feed s I B) as [I1 St1].
  destruct (cleanup_run s1 I1) as (s2 & t3 & C' & _ & _ & _ & Acq & Rel).
  rewrite C' in C. inversion C; subst.
  destruct (steady_no_lifecycle t1 St1) as [A1 R1].
  rewrite acquisitions_app, releases_app, A1, R1, Acq, Rel. split; reflexivity.
Qed.

(** C5. The exit status of the process.  When [__init__] fails at
    [initialize_flask_app] or at the start of the server thread, the handler
    shows the error and runs [cleanup], and the [sys.exit(0)] of [cleanup]
    ends the process with status 0: the [sys.exit(1)] of the handler is not
    reached.  When [SensorManager()] or [AlertManager()] fails, the handler
    itself fails on [self.display_manager]: the status is 1, with no error
    screen and no clean-up.  A run that ends after a successful [__init__]
    (the operator's interrupt included) exits with status 0. *)
Theorem init_failure_exit_status :
  (forall (step : init_step) (msg : string) (startup_fault : option exn)
          (feed : list cycle_input),
      exists o s' tr,
        program (Some (step, msg)) startup_fault feed = (o, s', tr)
        /\ match step with
           | AtSensorManager | AtAlertManager =>
               exit_status o = Some 1 /\ shows_error tr = false /\ releases tr = []
           | AtFlaskInit | AtFlaskThread =>
               exit_status o = Some 0 /\ shows_error tr = true
               /\ releases tr = [Alerts; Sensors; Display]
           end)
  /\ (forall (startup_fault : option exn) (feed : list cycle_input) o s' tr,
        program None startup_fault feed = (o, s', tr) ->
        o <> Pending ->
        exit_status o = Some 0).
Proof.
  split.
  - intros step msg startup_fault feed.
    destruct step; cbn; eexists _, _, _; (split; [reflexivity | ]);
      repeat split; reflexivity.
  - intros startup_fault feed o s' tr H NP.
    destruct (@program_started startup_fault feed o s' tr H) as (t1 & R & _).
    destruct (@run_lifecycle startup_fault feed started o s' t1 eq_refl R NP)
      as (Ex & _ & _).
    rewrite Ex. reflexivity.
Qed.

(** C6. In a process that ends after a successful [__init__], however it
    ends, the components are constructed in the order sensors, alerts,
    display and cleaned up in the order alerts, sensors, display: the
    clean-up order is not the reverse of the construction order. *)
Theorem cleanup_release_order :
  forall (startup_fault : option exn) (feed : list cycle_input) o s' tr,
    program None startup_fault feed = (o, s', tr) ->
    o <> Pending ->
    acquisitions tr = [Sensors; Alerts; Display]
    /\ releases tr = [Alerts; Sensors; Display]
    /\ releases tr <> rev (acquisitions tr).
Proof.
  intros startup_fault feed o s' tr H NP.
  destruct (@program_started startup_fault feed o s' tr H) as (t1 & R & Hw).
  destruct (@run_lifecycle startup_fault feed started o s' t1 eq_refl R NP)
    as (_ & Acq & Rel).
  assert (A : acquisitions tr = [Sensors; Alerts; Display]).
  { rewrite <- acquisitions_hardware, Hw, acquisitions_app, acquisitions_hardware, Acq.
    reflexivity. }
  assert (Rl : releases tr = [Alerts; Sensors; Display]).
  { rewrite <- releases_hardware, Hw, releases_app, releases_hardware, Rel.
    reflexivity. }
  rewrite A, Rl. repeat split. discriminate.
Qed.

(** ** The process ends when the operator interrupts it *)

Lemma monitor_pass_interrupted i (s : Self) :
  initialized s = true ->
  interrupted i = true ->
  exists s' tr, monitor_pass i s = (Return true, s', tr).
Proof.
  intros I Q. destruct (initialized_inv s I) as (sm & am & dm & E).
  assert (Hs : sensor_manager s = Some sm) by (rewrite E; reflexivity).
  unfold interrupted in Q. destruct (acquired i) eqn:A; try discriminate.
  unfold monitor_pass, try_except, bind.
  rewrite (monitor_cycle_failed i s Hs), A. cbn.
  eexists _, _. reflexivity.
Qed.

Lemma monitor_loop_exits feed :
  existsb interrupted feed = true ->
  forall (s : Self) o s' tr,
    initialized s = true ->
    monitor_loop feed s = (o, s', tr) ->
    o <> Pending.
Proof.
  induction feed as [ | i rest IH]; [discriminate | ].
  intros Q s o s' tr I H. cbn [monitor_loop] in H.
  unfold bind at 1 in H. unfold get in H.
  destruct (running s); [ | cbn in H; inversion H; discriminate].
  destruct (monitor_pass i s) as [[o1 s1] t1] eqn:P.
  destruct (monitor_pass_inv i s I P) as (I1 & _ & NP & _ & _).
  unfold bind in H. rewrite P in H.
  destruct o1 as [[ | ] | e | ]; cbn in H.
  - inversion H; discriminate.
  - destruct (monitor_loop rest s1) as [[o2 s2] t2] eqn:L.
    inversion H; subst.
    cbn [existsb] in Q. destruct (interrupted i) eqn:Qi.
    + destruct (monitor_pass_interrupted i s I Qi) as (s3 & t3 & P3). congruence.
    + exact (IH Q s1 o s' t2 I1 L).
  - inversion H; discriminate.
  - congruence.
Qed.

(** Enough input gives the result: a process whose feed holds an operator
    interrupt ends, with the exit status of [sys.exit(0)]. *)
Lemma program_exits_when_interrupted startup_fault feed :
  existsb interrupted feed = true ->
  exists s' tr,
    program None startup_fault feed = (Raise (SystemExit 0), s', tr).
Proof.
  intros Q.
  destruct (program None startup_fault feed) as [[o s'] tr] eqn:H.
  assert (NP : o <> Pending).
  { destruct (@program_started startup_fault feed o s' tr H) as (t1 & R & _).
    clear H. unfold run, try_finally in R.
    destruct (try_except (monitor_restricted_area startup_fault feed) _ started)
      as [[o1 s1] t2] eqn:B.
    assert (NP1 : o1 <> Pending /\ initialized s1 = true).
    { split; [ | exact (proj1 (run_body_inv startup_fault feed started eq_refl B))].
      apply try_except_inv in B.
      destruct B as [(e & s2 & t3 & k & t4 & B & Hk & K & ->) | [B _]].
      - destruct e as [ | msg | code]; cbn in Hk; inversion Hk; subst k;
          cbn in K; inversion K; discriminate.
      - unfold monitor_restricted_area in B.
        destruct (show_startup_run startup_fault started eq_refl) as (t0 & SU & _).
        unfold say at 1 2 in B. unfold bind at 1 2 in B. unfold emit in B.
        unfold bind at 1 in B. rewrite SU in B.
        destruct startup_fault as [e | ]; [inversion B; discriminate | ].
        destruct (try_except (monitor_loop feed) _ started) as [[o3 s3] t3] eqn:T.
        inversion B; subst. clear B.
        apply try_except_inv in T.
        destruct T as [(e & s2 & t5 & k & t4 & L & Hk & K & ->) | [L _]].
        + destruct (monitor_loop_inv feed started eq_refl L) as (I2 & _ & _).
          destruct e as [ | msg | code]; try discriminate. cbn in Hk.
          inversion Hk; subst k.
          destruct (show_error_run "RUNTIME_ERROR" msg s2 I2) as (t6 & SE & _ & _).
          unfold print, emit in K. unfold bind in K. rewrite SE in K.
          inversion K; discriminate.
        + exact (monitor_loop_exits feed Q started eq_refl L). }
    destruct NP1 as [NP1 I1].
    destruct (cleanup_run s1 I1) as (s2 & t3 & C & _).
    rewrite C in R. destruct o1; inversion R; subst; try discriminate. congruence. }
  destruct (@program_started startup_fault feed o s' tr H) as (t1 & R & _).
  destruct (@run_lifecycle startup_fault feed started o s' t1 eq_refl R NP)
    as (Ex & _ & _).
  subst o. eexists _, _. reflexivity.
Qed.

(** * Further properties of display.py *)

(** [0 <= x] and [x] different from zero give [0 < x]; [0 < x] gives
    [0 <= x]. *)
Lemma leb_ltb_nonzero (x : float) :
  (x =? 0)%float = false -> (0 <? x)%float = (0 <=? x)%float.
Proof.
  rewrite FloatAxioms.eqb_spec, ltb_spec, leb_spec. unfold SFeqb, SFltb, SFleb.
  rewrite (SFcompare_swap (Prim2SF 0) (Prim2SF x)).
  destruct (SFcompare (Prim2SF 0) (Prim2SF x)) as [[ | | ] | ]; simpl;
    congruence.
Qed.

(** Where a rendering [display_message] prints the distance of its dict. *)
Lemma display_message_distance_line self current_time message d x :
  data_distance d = Some x ->
  (display_update_interval self <=? current_time - last_update_time self)%float = true ->
  (In (distance_line x) (snd (display_message current_time message (Some d) self))
   <-> (0 <? x)%float = true).
Proof.
  intros D E. unfold_display. rewrite E.
  destruct d as [[m|] dist [ts|]]; simpl in D; subst dist; simpl;
    destruct (0 <? x)%float; simpl;
    unfold distance_line; simpl;
    (split; intros K; try discriminate; try tauto;
     repeat (destruct K as [K | K]; [try discriminate K | ]); try tauto;
     exfalso; exact K).
Qed.

(** X1. The diagnostic log of the loop and the display agree on every
    distance that is not zero (negative sentinel, not-a-number and positive
    values alike): a rendering [display_message] prints the numeric distance
    line exactly when the log formats the distance as a number. *)
Theorem log_and_display_agree_off_zero :
  forall (self : LCDDisplay) (current_time : float) (message : string)
         (d : display_data) (x : float),
    data_distance d = Some x ->
    (display_update_interval self <=? current_time - last_update_time self)%float = true ->
    (x =? 0)%float = false ->
    (In (distance_line x) (snd (display_message current_time message (Some d) self))
     <-> dist_str x = Fixed 2 x).
Proof.
  intros self current_time message d x D E NZ.
  rewrite (@display_message_distance_line self current_time message d x D E).
  rewrite (@leb_ltb_nonzero x NZ). unfold dist_str.
  destruct (0 <=? x)%float; split; intros H; try reflexivity; discriminate H.
Qed.

(** X2. A call of [display_message] that renders makes the next call a
    no-op when that one comes less than the interval later: its message is
    not shown and not recorded, and [current_message] stays the first one. *)
Theorem second_message_dropped :
  forall (self : LCDDisplay) (t1 t2 : float) (m1 m2 : string)
         (d1 d2 : option display_data),
    (display_update_interval self <=? t1 - last_update_time self)%float = true ->
    (t2 - t1 <? display_update_interval self)%float = true ->
    (display_message t1 m1 d1 ;; display_message t2 m2 d2) self
    = display_message t1 m1 d1 self
    /\ current_message (snd (fst ((display_message t1 m1 d1 ;;
                                   display_message t2 m2 d2) self))) = m1.
Proof.
  intros self t1 t2 m1 m2 d1 d2 E1 E2.
  destruct (display_message_due self m1 d1 E1) as (tr & H & _).
  assert (N : display_message t2 m2 d2 (committed self m1 t1)
              = (Return tt, committed self m1 t1, [])).
  { apply display_message_not_due. cbn. apply ltb_leb_false. exact E2. }
  rewrite (bind_return _ _ _ H), N, H, app_nil_r. split; reflexivity.
Qed.

(** X3. The startup, shutdown and error screens are not throttled and are
    not recorded: each of them clears the screen and prints whatever
    [last_update_time] is, and leaves the object as it was, so
    [current_message] does not name the screen and the next
    [display_message] is throttled as if the screen had not been shown. *)
Theorem screens_bypass_throttle :
  forall (self : LCDDisplay) (error_code error_description : string),
    (exists tr,
        show_error_message error_code error_description self
        = (Return tt, self, OsClear :: tr)
        /\ In (Print [Lit "ERROR CODE: "; Lit error_code]) tr
        /\ In (Print [Lit "DESCRIPTION: "; Lit error_description]) tr)
    /\ (exists tr,
          show_shutdown_message self = (Return tt, self, OsClear :: tr)
          /\ In (Print [Lit "STATUS: "; Lit SYSTEM_SHUTDOWN]) tr)
    /\ (exists tr,
          show_startup_message None self = (Return tt, self, OsClear :: tr)
          /\ In (Print [Lit "STATUS: "; Lit SYSTEM_STARTUP]) tr
          /\ In (Sleep 2) tr).
Proof.
  intros self error_code error_description. split; [ | split].
  - cbn. eexists. split; [reflexivity | ]. split; cbn; tauto.
  - cbn. eexists. split; [reflexivity | ]. cbn; tauto.
  - cbn. eexists. split; [reflexivity | ]. split; cbn; tauto.
Qed.

(** X4. [update_display] counts every call: a call that comes less than the
    interval after the last rendering prints nothing and leaves the LCD
    object alone, and still adds one to [display_count]. *)
Theorem throttled_update_still_counted :
  forall (current_time : float) (timestamp : string)
         (intrusion_detected motion : bool) (distance : float) (self : DisplayManager),
    (current_time - last_update_time (lcd self) <? display_update_interval (lcd self))%float
    = true ->
    update_display current_time timestamp intrusion_detected motion distance self
    = (Return tt, mkDisplayManager (lcd self) (display_count self + 1), []).
Proof.
  intros current_time timestamp intrusion_detected motion distance self L.
  rewrite update_display_unfold. unfold in_lcd, zoom, bind, modify.
  rewrite (display_message_not_due (lcd self) _ _ (ltb_leb_false L)).
  destruct self as [l n]. reflexivity.
Qed.

(** * Further properties of main.py *)

(** The result of a cycle whose acquisition succeeds, from the results of
    the alert manager and of the display manager. *)
Lemma monitor_cycle_explicit i sm am dm r c m d te h :
  acquired i = Reading m d te h ->
  monitor_cycle i (mkIDS (Some sm) (Some am) (Some dm) r c)
  = (let v := check_intrusion m d DISTANCE_THRESHOLD in
     let ua := update_status v am in
     let ud := update_display (clock i) (stamp i) v m d dm in
     (Return v,
      mkIDS (Some sm) (Some (snd (fst ua))) (Some (snd (fst ud))) r (c + 1),
      snd ua ++ snd ud
          ++ (if c mod 10 =? 0 then [cycle_log c m d te h v] else []))).
Proof.
  intros H. unfold monitor_cycle.
  destruct (update_status_run (check_intrusion m d DISTANCE_THRESHOLD) am)
    as (out & t1 & U & _).
  destruct (update_display_run (clock i) (stamp i)
              (check_intrusion m d DISTANCE_THRESHOLD) m d dm) as (l & t2 & V & _).
  unfold_attrs. rewrite H. unfold_attrs. rewrite U. unfold_attrs. rewrite V. unfold_attrs.
  cbn zeta. rewrite ?U, ?V. cbn [fst snd].
  destruct (c mod 10 =? 0); destruct te, h; cbn; rewrite ?app_nil_r; reflexivity.
Qed.

Lemma update_status_no_log (v : bool) (am : AlertManager) :
  forallb (fun e => negb (is_cycle_log e)) (snd (update_status v am)) = true.
Proof. destruct am as [[ | ] out], v; reflexivity. Qed.

Lemma update_display_no_log current_time timestamp intrusion motion distance
      (dm : DisplayManager) :
  forallb (fun e => negb (is_cycle_log e))
          (snd (update_display current_time timestamp intrusion motion distance dm))
  = true.
Proof.
  rewrite update_display_unfold. unfold in_lcd, zoom, bind, modify.
  destruct (display_update_interval (lcd dm) <=? current_time - last_update_time (lcd dm))%float
    eqn:E.
  - unfold_display. rewrite E. unfold rendered_data. cbn.
    destruct (0 <? distance)%float; reflexivity.
  - rewrite (display_message_not_due (lcd dm) _ _ E). reflexivity.
Qed.

(** X5. The diagnostic line is printed by the cycles whose number, the
    count of the cycles completed before, is a multiple of ten, and by no
    other: such a cycle prints the line with that number, and any other
    cycle prints no line that starts with "[CYCLE ". *)
Theorem diagnostic_log_every_tenth_cycle :
  forall (s : Self) (i : cycle_input) (motion : bool) (distance : float)
         (temperature humidity : option float),
    initialized s = true ->
    acquired i = Reading motion distance temperature humidity ->
    (cycle_count s mod 10 = 0 ->
     exists intrusion,
       fst (fst (monitor_cycle i s)) = Return intrusion
       /\ In (cycle_log (cycle_count s) motion distance temperature humidity intrusion)
             (snd (monitor_cycle i s)))
    /\ (cycle_count s mod 10 <> 0 ->
        existsb is_cycle_log (snd (monitor_cycle i s)) = false).
Proof.
  intros s i motion distance temperature humidity I A.
  destruct (initialized_inv s I) as (sm & am & dm & E). rewrite E.
  cbn [cycle_count].
  rewrite (monitor_cycle_explicit i sm am dm (running s) (cycle_count s) A).
  cbn zeta. cbn [fst snd]. split.
  - intros Z0. apply Z.eqb_eq in Z0. rewrite Z0.
    exists (check_intrusion motion distance DISTANCE_THRESHOLD).
    split; [reflexivity | ].
    apply in_or_app. right. apply in_or_app. right. left. reflexivity.
  - intros NZ. apply Z.eqb_neq in NZ. rewrite NZ. rewrite app_nil_r.
    rewrite existsb_app. apply orb_false_iff. split.
    + generalize (update_status_no_log
                    (check_intrusion motion distance DISTANCE_THRESHOLD) am).
      generalize (snd (update_status
                         (check_intrusion motion distance DISTANCE_THRESHOLD) am)).
      intros l. induction l as [ | e l IH]; [reflexivity | ].
      cbn. intros H. apply andb_true_iff in H. destruct H as [He Hl].
      rewrite (IH Hl). destruct (is_cycle_log e); [discriminate He | reflexivity].
    + generalize (update_display_no_log (clock i) (stamp i)
                    (check_intrusion motion distance DISTANCE_THRESHOLD)
                    motion distance dm).
      generalize (snd (update_display (clock i) (stamp i)
                         (check_intrusion motion distance DISTANCE_THRESHOLD)
                         motion distance dm)).
      intros l. induction l as [ | e l IH]; [reflexivity | ].
      cbn. intros H. apply andb_true_iff in H. destruct H as [He Hl].
      rewrite (IH Hl). destruct (is_cycle_log e); [discriminate He | reflexivity].
Qed.

(** X6. Failures of the acquisition are never escalated: over any number of
    consecutive passes whose [read_sensors()] raises, the loop keeps
    polling, the system object stays exactly as it was, and the trace holds
    nothing but the error line and the one-second pause of each pass. *)
Theorem repeated_failures_keep_state :
  forall (feed : list cycle_input) (s : Self) (sm : SensorManager),
    sensor_manager s = Some sm ->
    running s = true ->
    forallb failing feed = true ->
    monitor_loop feed s = (Pending, s, failure_trace feed).
Proof.
  induction feed as [ | i rest IH]; intros s sm Hs Run F.
  - cbn. unfold bind, get. rewrite Run. reflexivity.
  - cbn [forallb] in F. apply andb_true_iff in F. destruct F as [Fi Fr].
    unfold failing in Fi.
    destruct (acquired i) as [ | msg | ] eqn:A; try discriminate.
    destruct (retry_fault i) eqn:R; try discriminate.
    assert (P : monitor_pass i s = (Return false, s, failed_cycle_trace msg)).
    { unfold monitor_pass, try_except. unfold bind at 1.
      rewrite (monitor_cycle_failed i s Hs), A, R. reflexivity. }
    cbn [monitor_loop failure_trace]. rewrite A.
    unfold bind at 1. unfold get. rewrite Run.
    rewrite (bind_return _ _ _ P), (IH s sm Hs Run Fr). reflexivity.
Qed.

(** X7. A [KeyboardInterrupt] that arrives during the one-second pause of
    the error handler is not handled by the loop: it leaves
    [monitor_restricted_area] as an exception, the interrupt line of the loop
    is not printed and the object, [self.running] included, is unchanged: the
    flag is still true. *)
Theorem interrupt_during_retry_pause_escapes :
  forall (s : Self) (i : cycle_input) (msg : string) (rest : list cycle_input),
    initialized s = true ->
    running s = true ->
    acquired i = SensorError msg ->
    retry_fault i = Some KeyboardInterrupt ->
    monitor_loop (i :: rest) s = (Raise KeyboardInterrupt, s, failed_cycle_trace msg)
    /\ exists tr,
         monitor_restricted_area None (i :: rest) s = (Raise KeyboardInterrupt, s, tr).
Proof.
  intros s i msg rest I Run A R.
  destruct (initialized_inv s I) as (sm & am & dm & E).
  assert (Hs : sensor_manager s = Some sm) by (rewrite E; reflexivity).
  assert (P : monitor_pass i s = (Raise KeyboardInterrupt, s, failed_cycle_trace msg)).
  { unfold monitor_pass, try_except. unfold bind at 1.
    rewrite (monitor_cycle_failed i s Hs), A, R. reflexivity. }
  assert (L : monitor_loop (i :: rest) s
              = (Raise KeyboardInterrupt, s, failed_cycle_trace msg)).
  { cbn [monitor_loop]. unfold bind at 1. unfold get. rewrite Run.
    unfold bind. rewrite P. reflexivity. }
  split; [exact L | ].
  destruct (show_startup_run None s I) as (t0 & SU & _).
  unfold monitor_restricted_area.
  unfold say at 1 2. unfold bind at 1 2. unfold emit. unfold bind at 1.
  rewrite SU. unfold try_except. rewrite L. cbn. eexists. reflexivity.
Qed.

(** X8. A [KeyboardInterrupt] that arrives during the delay at the end of a
    cycle stops the loop without undoing the cycle: the alert update, the
    display update and the increment of the cycle counter stay, [running]
    becomes false, the loop returns normally and the passes that would
    follow are not run. *)
Theorem interrupt_during_delay_keeps_cycle :
  forall (s : Self) (i : cycle_input) (motion : bool) (distance : float)
         (temperature humidity : option float) (rest : list cycle_input),
    initialized s = true ->
    running s = true ->
    acquired i = Reading motion distance temperature humidity ->
    delay_fault i = Some KeyboardInterrupt ->
    exists intrusion s1 t1,
      monitor_cycle i s = (Return intrusion, s1, t1)
      /\ cycle_count s1 = cycle_count s + 1
      /\ monitor_loop (i :: rest) s
         = (Return tt, set_running false s1,
            t1 ++ [Sleep MAIN_LOOP_DELAY; interrupt_line]).
Proof.
  intros s i motion distance temperature humidity rest I Run A D.
  destruct (initialized_inv s I) as (sm & am & dm & E).
  destruct (monitor_cycle_reading i sm am dm (running s) (cycle_count s) A)
    as (out & l & t1 & C & _).
  rewrite <- E in C. eexists _, _, t1. split; [exact C | ]. split; [reflexivity | ].
  cbn [monitor_loop]. unfold bind at 1. unfold get. rewrite Run.
  unfold monitor_pass, try_except. unfold bind at 1.
  rewrite (bind_return _ _ _ C), D. cbn.
  rewrite ?app_nil_r, <- ?app_assoc. reflexivity.
Qed.

(** X9. [cleanup] never returns to its caller: on every object, also one
    whose managers were never assigned, it ends in [sys.exit(0)].
    [GPIO.cleanup()] is reached exactly when all three managers exist: a
    missing manager raises inside the [try], and what follows it is
    skipped. *)
Theorem cleanup_always_exits :
  forall s : Self,
    exists s' tr,
      cleanup s = (Raise (SystemExit 0), s', tr)
      /\ (In GpioCleanup tr <-> initialized s = true).
Proof.
  intros [[sm | ] [am | ] [[l n] | ] r c]; cbn; eexists _, _;
    (split; [reflexivity | ]); unfold initialized; cbn;
    (split; intros K; try discriminate K; try tauto;
     repeat (destruct K as [K | K]; [discriminate K | ]); exfalso; exact K).
Qed.

(** X10. When the startup screen is cut short -- its [time.sleep(2)] raises,
    whatever it raises -- no cycle is run, whatever the sensors would have
    answered: [run] goes to [cleanup] and the process ends in [sys.exit(0)]
    with both counters at zero and the components cleaned up. *)
Theorem startup_fault_skips_monitoring :
  forall (e : exn) (feed : list cycle_input),
    exists s' tr,
      program None (Some e) feed = (Raise (SystemExit 0), s', tr)
      /\ cycle_count s' = 0
      /\ system_display_count s' = Some 0
      /\ releases tr = [Alerts; Sensors; Display]
      /\ In GpioCleanup tr.
Proof.
  intros e feed. destruct e as [ | msg | code]; cbn; eexists _, _;
    (split; [reflexivity | ]); (split; [reflexivity | ]); (split; [reflexivity | ]);
    (split; [reflexivity | ]); cbn; tauto.
Qed.

(** X11. After a successful startup screen [monitor_restricted_area] never
    lets an [Exception] out: one that escapes the handlers of the loop is
    caught by the outer handler, which shows the RUNTIME_ERROR screen and
    returns. *)
Theorem monitor_contains_exceptions :
  forall (feed : list cycle_input) (s : Self) o s' tr,
    initialized s = true ->
    monitor_restricted_area None feed s = (o, s', tr) ->
    (forall msg, o <> Raise (Exception msg))
    /\ ((exists msg s1 t1, monitor_loop feed s = (Raise (Exception msg), s1, t1)) ->
        o = Return tt /\ shows_error tr = true).
Proof.
  intros feed s o s' tr I H. unfold monitor_restricted_area in H.
  destruct (show_startup_run None s I) as (t0 & SU & St0).
  unfold say at 1 2 in H. unfold bind at 1 2 in H. unfold emit in H.
  unfold bind at 1 in H. rewrite SU in H.
  destruct (try_except (monitor_loop feed) _ s) as [[o1 s1] t1] eqn:T.
  inversion H; subst. clear H.
  apply try_except_inv in T.
  destruct T as [(e & s2 & t2 & k & t3 & L & Hk & K & ->) | [L NH]].
  - destruct (monitor_loop_inv feed s I L) as (I2 & _ & _).
    destruct e as [ | msg | code]; try discriminate. cbn in Hk.
    inversion Hk; subst k.
    destruct (show_error_run "RUNTIME_ERROR" msg s2 I2) as (t4 & SE & _ & Sh).
    unfold print, emit in K. unfold bind in K. rewrite SE in K.
    inversion K; subst. split; [discriminate | ].
    intros _. split; [reflexivity | ].
    unfold shows_error in *. cbn [app existsb orb].
    rewrite !existsb_app. cbn [existsb]. rewrite Sh.
    rewrite !orb_true_r. reflexivity.
  - split.
    + intros msg Eo. specialize (NH _ Eo). discriminate NH.
    + intros (msg & s3 & t3 & L'). rewrite L' in L. inversion L; subst.
      specialize (NH _ eq_refl). discriminate NH.
Qed.

(** ** Relations that every step of the process keeps *)

Section Invariant.
Variable R : Self -> Self -> Prop.
Hypothesis R_refl : forall s, R s s.
Hypothesis R_trans : forall s1 s2 s3, R s1 s2 -> R s2 s3 -> R s1 s3.
Hypothesis R_pass :
  forall i s o s' tr,
    initialized s = true -> monitor_pass i s = (o, s', tr) -> R s s'.
Hypothesis R_cleanup :
  forall s o s' tr, initialized s = true -> cleanup s = (o, s', tr) -> R s s'.

Lemma monitor_loop_rel feed :
  forall (s : Self) o s' tr,
    initialized s = true -> monitor_loop feed s = (o, s', tr) -> R s s'.
Proof.
  induction feed as [ | i rest IH]; intros s o s' tr I H.
  - cbn in H. unfold bind, get in H. destruct (running s); cbn in H;
      inversion H; subst; apply R_refl.
  - cbn [monitor_loop] in H. unfold bind at 1 in H. unfold get in H.
    destruct (running s); [ | cbn in H; inversion H; subst; apply R_refl].
    destruct (monitor_pass i s) as [[o1 s1] t1] eqn:P.
    destruct (monitor_pass_inv i s I P) as (I1 & _ & _ & _ & _).
    pose proof (R_pass i s I P) as R1.
    unfold bind in H. rewrite P in H.
    destruct o1 as [[ | ] | e | ]; cbn in H; try (inversion H; subst; exact R1).
    destruct (monitor_loop rest s1) as [[o2 s2] t2] eqn:L.
    inversion H; subst. exact (R_trans R1 (IH _ _ _ _ I1 L)).
Qed.

Lemma monitor_restricted_area_rel startup_fault feed (s : Self) o s' tr :
  initialized s = true ->
  monitor_restricted_area startup_fault feed s = (o, s', tr) ->
  R s s'.
Proof.
  intros I H. unfold monitor_restricted_area in H.
  destruct (show_startup_run startup_fault s I) as (t0 & SU & _).
  unfold say at 1 2 in H. unfold bind at 1 2 in H. unfold emit in H.
  unfold bind at 1 in H. rewrite SU in H.
  destruct startup_fault as [e | ]; [inversion H; subst; apply R_refl | ].
  destruct (try_except (monitor_loop feed) _ s) as [[o1 s1] t1] eqn:T.
  inversion H; subst. clear H.
  apply try_except_inv in T.
  destruct T as [(e & s2 & t2 & k & t3 & L & Hk & K & ->) | [L _]].
  - destruct (monitor_loop_inv feed s I L) as (I2 & _ & _).
    destruct e as [ | msg | code]; try discriminate. cbn in Hk.
    inversion Hk; subst k.
    destruct (show_error_run "RUNTIME_ERROR" msg s2 I2) as (t4 & SE & _ & _).
    unfold print, emit in K. unfold bind in K. rewrite SE in K.
    inversion K; subst. exact (monitor_loop_rel feed s I L).
  - exact (monitor_loop_rel feed s I L).
Qed.

Lemma run_rel startup_fault feed (s : Self) o s' tr :
  initialized s = true ->
  run startup_fault feed s = (o, s', tr) ->
  R s s'.
Proof.
  intros I H. unfold run, try_finally in H.
  destruct (try_except (monitor_restricted_area startup_fault feed) _ s)
    as [[o1 s1] t1] eqn:B.
  destruct (run_body_inv startup_fault feed s I B) as [I1 _].
  assert (R1 : R s s1).
  { apply try_except_inv in B.
    destruct B as [(e & s2 & t2 & k & t3 & B & Hk & K & ->) | [B _]].
    - pose proof (monitor_restricted_area_rel startup_fault feed s I B) as R2.
      destruct e as [ | msg | code]; cbn in Hk; inversion Hk; subst k;
        cbn in K; inversion K; subst; exact R2.
    - exact (monitor_restricted_area_rel startup_fault feed s I B). }
  destruct (cleanup s1) as [[o2 s2] t2] eqn:C.
  pose proof (R_cleanup s1 I1 C) as R2.
  destruct o1 as [a | e | ]; [ | | inversion H; subst; exact R1];
    destruct o2 as [u | e2 | ]; inversion H; subst; exact (R_trans R1 R2).
Qed.

Lemma program_rel startup_fault feed o s' tr :
  program None startup_fault feed = (o, s', tr) -> R started s'.
Proof.
  intros H. destruct (@program_started startup_fault feed o s' tr H) as (t1 & Rn & _).
  exact (run_rel startup_fault feed started eq_refl Rn).
Qed.
End Invariant.

(** How a pass leaves the object: as it was, as it was with [running]
    false, or as a completed cycle left it, with [running] false or not. *)
Lemma monitor_pass_shape i (s : Self) o s' tr :
  initialized s = true ->
  monitor_pass i s = (o, s', tr) ->
  s' = s \/ s' = set_running false s
  \/ exists v s1 t1,
       monitor_cycle i s = (Return v, s1, t1)
       /\ (s' = s1 \/ s' = set_running false s1).
Proof.
  intros I. destruct (initialized_inv s I) as (sm & am & dm & E).
  assert (Hs : sensor_manager s = Some sm) by (rewrite E; reflexivity).
  unfold monitor_pass, try_except.
  destruct (acquired i) as [m d te h | msg | ] eqn:A.
  - destruct (monitor_cycle_reading i sm am dm (running s) (cycle_count s) A)
      as (out & l & t0 & C & _).
    rewrite <- E in C. rewrite (bind_return _ _ _ C).
    intros H. right. right. eexists _, _, _. split; [exact C | ].
    revert H.
    destruct (delay_fault i) as [[ | msg | code] | ];
      try (destruct (retry_fault i) as [[ | msg' | code'] | ]);
      cbn; intros H; inversion H; subst; auto.
  - unfold bind. rewrite (monitor_cycle_failed i s Hs), A.
    destruct (retry_fault i) as [[ | msg' | code'] | ];
      cbn; intros H; inversion H; subst; auto.
  - unfold bind. rewrite (monitor_cycle_failed i s Hs), A.
    cbn; intros H; inversion H; subst; auto.
Qed.






Lemma update_display_settings current_time timestamp intrusion motion distance
      (dm : DisplayManager) :
  let dm' := snd (fst (update_display current_time timestamp intrusion motion
                         distance dm)) in
  enable_framebuffer (lcd dm') = enable_framebuffer (lcd dm)
  /\ display_update_interval (lcd dm') = display_update_interval (lcd dm).
Proof.
  rewrite update_display_unfold. unfold in_lcd, zoom, bind, modify.
  destruct (display_update_interval (lcd dm) <=? current_time - last_update_time (lcd dm))%float
    eqn:E.
  - destruct (display_message_due (lcd dm)
                (if intrusion then INTRUSION_MESSAGE else SAFE_MESSAGE)
                (Some (rendered_data intrusion distance timestamp)) E) as [tr [H _]].
    rewrite H. cbn. split; reflexivity.
  - rewrite (display_message_not_due (lcd dm) _ _ E). cbn. split; reflexivity.
Qed.

Lemma same_lcd_settings_pass i (s : Self) o s' tr :
  initialized s = true -> monitor_pass i s = (o, s', tr) -> same_lcd_settings s s'.
Proof.
  intros I H. unfold same_lcd_settings.
  destruct (monitor_pass_shape i s I H) as [-> | [-> | (v & s1 & t1 & C & Hs')]];
    [reflexivity | reflexivity | ].
  assert (C1 : lcd_settings s1 = lcd_settings s).
  { destruct (initialized_inv s I) as (sm & am & dm & E).
    assert (Hs : sensor_manager s = Some sm) by (rewrite E; reflexivity).
    destruct (acquired i) as [m d te h | msg | ] eqn:A.
    - rewrite E in C.
      rewrite (monitor_cycle_explicit i sm am dm (running s) (cycle_count s) A) in C.
      cbn zeta in C. inversion C; subst s1. rewrite E. unfold lcd_settings. cbn.
      destruct (update_display_settings (clock i) (stamp i)
                  (check_intrusion m d DISTANCE_THRESHOLD) m d dm) as [F V].
      cbn zeta in F, V. rewrite F, V. reflexivity.
    - rewrite (monitor_cycle_failed i s Hs), A in C. discriminate C.
    - rewrite (monitor_cycle_failed i s Hs), A in C. discriminate C. }
  destruct Hs' as [-> | ->]; exact C1.
Qed.

Lemma same_lcd_settings_cleanup (s : Self) o s' tr :
  initialized s = true -> cleanup s = (o, s', tr) -> same_lcd_settings s s'.
Proof.
  intros I H. destruct (initialized_inv s I) as (sm & am & dm & E).
  rewrite E in H. destruct dm as [l n]. cbn in H. inversion H; subst s'.
  rewrite E. reflexivity.
Qed.

(** X13. The settings of the LCD object never change while the process
    runs: in every state that a started process reaches the update interval
    is the 1.0 second of [LCDDisplay.__init__] and the framebuffer flag is
    false. *)
Theorem lcd_settings_constant :
  forall (startup_fault : option exn) (feed : list cycle_input) o s' tr,
    program None startup_fault feed = (o, s', tr) ->
    exists dm,
      display_manager s' = Some dm
      /\ display_update_interval (lcd dm) = 1%float
      /\ enable_framebuffer (lcd dm) = false.
Proof.
  intros startup_fault feed o s' tr H.
  assert (Rf : forall s, same_lcd_settings s s) by reflexivity.
  assert (Rt : forall s1 s2 s3,
             same_lcd_settings s1 s2 -> same_lcd_settings s2 s3 ->
             same_lcd_settings s1 s3).
  { unfold same_lcd_settings. intros s1 s2 s3 H1 H2. congruence. }
  pose proof (@program_rel same_lcd_settings Rf Rt same_lcd_settings_pass
                same_lcd_settings_cleanup startup_fault feed o s' tr H) as S.
  unfold same_lcd_settings, lcd_settings in S. cbn in S.
  destruct (display_manager s') as [dm | ]; [ | discriminate S].
  cbn in S. inversion S. exists dm. auto.
Qed.

(** X14. A rendering [display_message] prints a line for each key that the
    dict holds and for no other: without a dict, or with an empty one, only
    the header and the status are printed; a missing key is never an error. *)
Theorem display_message_renders_present_keys :
  forall (self : LCDDisplay) (current_time : float) (message : string)
         (data : option display_data),
    (display_update_interval self <=? current_time - last_update_time self)%float = true ->
    let r := display_message current_time message data self in
    fst (fst r) = Return tt
    /\ prints_line_with "STATUS: " (snd r) = true
    /\ prints_line_with "Motion Detection: " (snd r) = has_key data_motion data
    /\ orb (prints_line_with "Distance: " (snd r))
           (prints_line_with "Distance: No valid reading" (snd r))
       = has_key data_distance data
    /\ prints_line_with "Time: " (snd r) = has_key data_timestamp data
    /\ prints_line_with "[ERROR] Failed to display message: " (snd r) = false.
Proof.
  intros self current_time message data E. cbn zeta.
  unfold_display. rewrite E.
  destruct data as [[[m | ] [x | ] [ts | ]] | ]; cbn;
    try destruct (0 <? x)%float; cbn; repeat split; reflexivity.
Qed.

(** X15. When [SensorManager()] or [AlertManager()] fails, nothing is
    cleaned up: [cleanup] is never entered, [GPIO.cleanup()] is not called,
    and a sensor manager that was already constructed is not released. *)
Theorem early_init_failure_releases_nothing :
  forall (msg : string) (startup_fault : option exn) (feed : list cycle_input),
    (let tr := snd (program (Some (AtSensorManager, msg)) startup_fault feed) in
     acquisitions tr = [] /\ releases tr = [] /\ hardware tr = [GpioSetMode])
    /\ (let tr := snd (program (Some (AtAlertManager, msg)) startup_fault feed) in
        acquisitions tr = [Sensors] /\ releases tr = []
        /\ hardware tr = [GpioSetMode; Acquire Sensors]).
Proof.
  intros msg startup_fault feed. split; cbn; repeat split; reflexivity.
Qed.

End Config.

(** * Sample runs

    A configuration with the threshold of the scenarios of the
    specification (100 cm), and passes built from its readings. *)

Definition threshold : float := 100.
Definition loop_delay : float := 0.5.
Definition intrusion_message : string := "INTRUSION DETECTED".
Definition safe_message : string := "AREA SAFE".
Definition startup_message : string := "SYSTEM STARTING".
Definition shutdown_message : string := "SYSTEM SHUTDOWN".

(** Motion at 50 cm, no temperature and no humidity: an intrusion. *)
Definition intruder : cycle_input :=
  mkCycle (Reading true 50 None None) 1000 "2024-05-01 10:00:00" None None.

(** Motion at 150 cm: beyond the threshold. *)
Definition passer_by : cycle_input :=
  mkCycle (Reading true 150 (Some 21.5%float) (Some 40%float)) 1002
          "2024-05-01 10:00:02" None None.

(** [read_sensors()] raises. *)
Definition sensor_down : cycle_input :=
  mkCycle (SensorError "sensor timeout") 1004 "2024-05-01 10:00:04" None None.

(** The operator presses Ctrl+C while the sensors are read. *)
Definition ctrl_c : cycle_input :=
  mkCycle SensorInterrupt 1006 "2024-05-01 10:00:06" None None.

(** An object on the sensor: distance 0 cm. *)
Definition touching : display_data :=
  mkData (Some false) (Some 0%float) (Some "2024-05-01 10:00:08"%string).

(** A display that committed its last update at time 1000. *)
Definition sample_lcd : LCDDisplay := mkLCDDisplay false "AREA SAFE" 1000 1.

Definition sample_program (init_fault : option (init_step * string))
    (startup_fault : option exn) (feed : list cycle_input)
    : outcome unit * Self * trace :=
  program threshold loop_delay intrusion_message safe_message startup_message
          shutdown_message init_fault startup_fault feed.

Definition sample_cycle : cycle_input -> M Self bool :=
  monitor_cycle threshold intrusion_message safe_message.

Definition sample_pass : cycle_input -> M Self bool :=
  monitor_pass threshold loop_delay intrusion_message safe_message.

Lemma display_message_interval_witness :
  ((1000.5 - last_update_time sample_lcd <? display_update_interval sample_lcd)%float = true
   /\ display_message 1000.5 intrusion_message None sample_lcd
      = (Return tt, sample_lcd, []))
  /\ ((display_update_interval sample_lcd <=? 1001 - last_update_time sample_lcd)%float = true
      /\ exists rest,
           display_message 1001 intrusion_message None sample_lcd
           = (Return tt, mkLCDDisplay false intrusion_message 1001 1, OsClear :: rest)
           /\ In (Print [Lit "STATUS: "; Lit intrusion_message]) rest).
Proof.
  split.
  - split; [reflexivity | ].
    destruct (display_message 1000.5 intrusion_message None sample_lcd)
      as [[o self'] tr] eqn:H.
    destruct (proj1 (display_message_interval sample_lcd 1000.5 intrusion_message None H)
                eq_refl) as (-> & -> & ->).
    reflexivity.
  - split; [reflexivity | ].
    destruct (display_message 1001 intrusion_message None sample_lcd)
      as [[o self'] tr] eqn:H.
    destruct (proj1 (proj2 (display_message_interval sample_lcd 1001 intrusion_message
                              None H)) eq_refl)
      as (-> & -> & _ & _ & rest & -> & St).
    exists rest. split; [reflexivity | exact St].
Defined.

Lemma display_message_distance_witness :
  data_distance touching = Some 0%float
  /\ (display_update_interval sample_lcd <=? 1001 - last_update_time sample_lcd)%float = true
  /\ In no_reading_line
        (snd (display_message 1001 safe_message (Some touching) sample_lcd))
  /\ ~ In (distance_line 0)
        (snd (display_message 1001 safe_message (Some touching) sample_lcd))
  /\ dist_str 0 = Fixed 2 0.
Proof.
  split; [reflexivity | ]. split; [reflexivity | ].
  destruct (display_message 1001 safe_message (Some touching) sample_lcd)
    as [[o self'] tr] eqn:H.
  destruct (@display_message_distance sample_lcd 1001 safe_message touching 0%float
              o self' tr eq_refl eq_refl H) as (Num & _ & Zero).
  destruct (Zero eq_refl) as (No & _ & Str).
  split; [exact No | ]. split; [ | exact Str].
  intros K. apply Num in K. discriminate K.
Defined.

Lemma cycle_verdict_witness :
  initialized started = true
  /\ acquired intruder = Reading true 50 None None
  /\ exists verdict s' tr,
       sample_cycle intruder started = (Return verdict, s', tr)
       /\ (verdict = true
           <-> true = true /\ distance_valid 50 = true /\ (50 <? threshold)%float = true)
       /\ (distance_valid 50 = false -> verdict = false).
Proof.
  split; [reflexivity | ]. split; [reflexivity | ].
  exact (@cycle_verdict threshold intrusion_message safe_message started intruder
           true 50%float None None eq_refl eq_refl).
Defined.

Lemma failed_acquisition_aborts_cycle_witness :
  sensor_manager started = Some SensorPort
  /\ acquired sensor_down = SensorError "sensor timeout"
  /\ retry_fault sensor_down = None
  /\ sample_cycle sensor_down started = (Raise (Exception "sensor timeout"), started, [])
  /\ sample_pass sensor_down started
     = (Return false, started, failed_cycle_trace "sensor timeout").
Proof.
  split; [reflexivity | ]. split; [reflexivity | ]. split; [reflexivity | ].
  destruct (@failed_acquisition_aborts_cycle threshold loop_delay intrusion_message
              safe_message started sensor_down "sensor timeout" SensorPort
              eq_refl eq_refl eq_refl) as (C & P & _).
  split; [exact C | exact P].
Defined.

Lemma missing_optional_fields_default_witness :
  initialized started = true
  /\ acquired intruder = Reading true 50 None None
  /\ sample_cycle intruder started
     = sample_cycle (with_acquired (Reading true 50 (Some 0.0%float) (Some 0.0%float))
                       intruder) started
  /\ exists s' tr, sample_pass intruder started = (Return false, s', tr).
Proof.
  split; [reflexivity | ]. split; [reflexivity | ].
  destruct (@missing_optional_fields_default threshold loop_delay intrusion_message
              safe_message started intruder true 50%float None None eq_refl eq_refl)
    as (_ & Same & _ & Pass).
  split; [exact Same | exact (Pass eq_refl)].
Defined.

Lemma alert_state_is_fold_of_table_witness :
  forallb quiet [intruder; sensor_down; passer_by] = true
  /\ verdicts threshold [intruder; sensor_down; passer_by] = [true; false]
  /\ exists s tr,
       sample_program None None [intruder; sensor_down; passer_by] = (Pending, s, tr)
       /\ system_alert_state s
          = Some (fold_table SAFE (verdicts threshold [intruder; sensor_down; passer_by])).
Proof.
  split; [reflexivity | ]. split; [reflexivity | ].
  exact (proj2 (proj2 (alert_state_is_fold_of_table threshold loop_delay
                         intrusion_message safe_message startup_message
                         shutdown_message))
           [intruder; sensor_down; passer_by] eq_refl).
Defined.

Lemma shutdown_deactivates_alert_witness :
  exists s' tr,
    sample_program None None [intruder; ctrl_c] = (Raise (SystemExit 0), s', tr)
    /\ Raise (SystemExit 0) <> @Pending unit
    /\ system_alert_state (snd (fst (sample_program None None [intruder])))
       = Some ALERT
    /\ system_alert_output s' = Some false
    /\ exists body,
         releases body = [] /\ hardware tr = hardware body ++ shutdown_sequence.
Proof.
  destruct (sample_program None None [intruder; ctrl_c]) as [[o s'] tr] eqn:H.
  assert (E : o = Raise (SystemExit 0)).
  { apply (f_equal (fun r => fst (fst r))) in H. cbn [fst] in H. rewrite <- H.
    vm_compute. reflexivity. }
  subst o. exists s', tr. split; [reflexivity | ].
  assert (NP : Raise (SystemExit 0) <> @Pending unit) by discriminate.
  split; [exact NP | ]. split; [vm_compute; reflexivity | ].
  destruct (@shutdown_deactivates_alert threshold loop_delay intrusion_message
              safe_message startup_message shutdown_message None None
              [intruder; ctrl_c] _ s' tr H NP) as (_ & Fin).
  assert (I : initialized s' = true).
  { apply (f_equal (fun r => initialized (snd (fst r)))) in H. cbn [fst snd] in H.
    rewrite <- H. vm_compute. reflexivity. }
  destruct (Fin I) as (_ & Off & B). split; [exact Off | exact B].
Defined.

Lemma cleanup_release_order_witness :
  exists s' tr,
    sample_program None None [intruder; ctrl_c] = (Raise (SystemExit 0), s', tr)
    /\ acquisitions tr = [Sensors; Alerts; Display]
    /\ releases tr = [Alerts; Sensors; Display]
    /\ releases tr <> rev (acquisitions tr).
Proof.
  destruct (sample_program None None [intruder; ctrl_c]) as [[o s'] tr] eqn:H.
  assert (E : o = Raise (SystemExit 0)).
  { apply (f_equal (fun r => fst (fst r))) in H. cbn [fst] in H. rewrite <- H.
    vm_compute. reflexivity. }
  subst o. exists s', tr. split; [reflexivity | ].
  apply (@cleanup_release_order threshold loop_delay intrusion_message
           safe_message startup_message shutdown_message None
           [intruder; ctrl_c] _ s' tr H).
  discriminate.
Defined.

(** ** The scenarios of the specification *)

Example scenario_intrusion : check_intrusion true 50 threshold = true.
Proof. reflexivity. Qed.

Example scenario_beyond_threshold : check_intrusion true 150 threshold = false.
Proof. reflexivity. Qed.

Example scenario_no_motion : check_intrusion false 10 threshold = false.
Proof. reflexivity. Qed.

Example scenario_invalid_distance : check_intrusion true (-1) threshold = false.
Proof. reflexivity. Qed.

Example scenario_init_fault_exit_status :
  exit_status (fst (fst (sample_program (Some (AtFlaskInit, "port in use"%string))
                           None [])))
  = Some 0.
Proof. vm_compute. reflexivity. Qed.

(** ** Sample runs of the further properties *)

(** An object at 50 cm, as the dict of [show_intrusion_alert] holds it. *)
Definition near : display_data :=
  mkData (Some true) (Some 50%float) (Some "2024-05-01 10:00:10"%string).

(** A display manager that has taken seven updates. *)
Definition sample_display : DisplayManager := mkDisplayManager sample_lcd 7.

(** [read_sensors()] raises, and Ctrl+C arrives during the one-second pause. *)
Definition sensor_down_interrupted : cycle_input :=
  mkCycle (SensorError "sensor timeout") 1004 "2024-05-01 10:00:04" None
          (Some KeyboardInterrupt).

(** [read_sensors()] raises, and the pause of the handler raises as well. *)
Definition sensor_down_pause_fails : cycle_input :=
  mkCycle (SensorError "sensor timeout") 1004 "2024-05-01 10:00:04" None
          (Some (Exception "interrupted system call")).

(** The intruder's cycle, with Ctrl+C during the delay that ends it. *)
Definition intruder_interrupted : cycle_input :=
  mkCycle (Reading true 50 None None) 1000 "2024-05-01 10:00:00"
          (Some KeyboardInterrupt) None.

Definition sample_loop : list cycle_input -> M Self unit :=
  monitor_loop threshold loop_delay intrusion_message safe_message.

Definition sample_monitor : option exn -> list cycle_input -> M Self unit :=
  monitor_restricted_area threshold loop_delay intrusion_message safe_message
                          startup_message.

Lemma log_and_display_agree_off_zero_witness :
  data_distance near = Some 50%float
  /\ (display_update_interval sample_lcd <=? 1001 - last_update_time sample_lcd)%float = true
  /\ (50 =? 0)%float = false
  /\ (In (distance_line 50)
         (snd (display_message 1001 intrusion_message (Some near) sample_lcd))
      <-> dist_str 50 = Fixed 2 50).
Proof.
  split; [reflexivity | ]. split; [reflexivity | ]. split; [reflexivity | ].
  exact (@log_and_display_agree_off_zero sample_lcd 1001 intrusion_message near
           50%float eq_refl eq_refl eq_refl).
Defined.

Lemma second_message_dropped_witness :
  (display_update_interval sample_lcd <=? 1001 - last_update_time sample_lcd)%float = true
  /\ (1001.5 - 1001 <? display_update_interval sample_lcd)%float = true
  /\ current_message
       (snd (fst ((display_message 1001 safe_message None ;;
                   display_message 1001.5 intrusion_message (Some near)) sample_lcd)))
     = safe_message.
Proof.
  split; [reflexivity | ]. split; [reflexivity | ].
  exact (proj2 (@second_message_dropped sample_lcd 1001 1001.5 safe_message
                  intrusion_message None (Some near) eq_refl eq_refl)).
Defined.

Lemma throttled_update_still_counted_witness :
  (1000.5 - last_update_time (lcd sample_display)
   <? display_update_interval (lcd sample_display))%float = true
  /\ update_display intrusion_message safe_message 1000.5 "2024-05-01 10:00:00"
       true true 50 sample_display
     = (Return tt, mkDisplayManager sample_lcd 8, []).
Proof.
  split; [reflexivity | ].
  exact (@throttled_update_still_counted intrusion_message safe_message 1000.5
           "2024-05-01 10:00:00" true true 50%float sample_display eq_refl).
Defined.

Lemma diagnostic_log_every_tenth_cycle_witness :
  initialized started = true
  /\ acquired intruder = Reading true 50 None None
  /\ cycle_count started mod 10 = 0
  /\ cycle_count (set_cycle_count 3 started) mod 10 <> 0
  /\ (exists intrusion,
        fst (fst (sample_cycle intruder started)) = Return intrusion
        /\ In (cycle_log 0 true 50 None None intrusion)
              (snd (sample_cycle intruder started)))
  /\ existsb is_cycle_log (snd (sample_cycle intruder (set_cycle_count 3 started)))
     = false.
Proof.
  split; [reflexivity | ]. split; [reflexivity | ]. split; [reflexivity | ].
  assert (N : cycle_count (set_cycle_count 3 started) mod 10 <> 0) by discriminate.
  split; [exact N | ]. split.
  - exact (proj1 (@diagnostic_log_every_tenth_cycle threshold intrusion_message
                    safe_message started intruder true 50%float None None
                    eq_refl eq_refl) eq_refl).
  - exact (proj2 (@diagnostic_log_every_tenth_cycle threshold intrusion_message
                    safe_message (set_cycle_count 3 started) intruder true 50%float
                    None None eq_refl eq_refl) N).
Defined.

Lemma repeated_failures_keep_state_witness :
  sensor_manager started = Some SensorPort
  /\ running started = true
  /\ forallb failing [sensor_down; sensor_down; sensor_down] = true
  /\ sample_loop [sensor_down; sensor_down; sensor_down] started
     = (Pending, started, failure_trace [sensor_down; sensor_down; sensor_down]).
Proof.
  split; [reflexivity | ]. split; [reflexivity | ]. split; [reflexivity | ].
  exact (@repeated_failures_keep_state threshold loop_delay intrusion_message
           safe_message [sensor_down; sensor_down; sensor_down] started SensorPort
           eq_refl eq_refl eq_refl).
Defined.

Lemma interrupt_during_retry_pause_escapes_witness :
  initialized started = true
  /\ running started = true
  /\ acquired sensor_down_interrupted = SensorError "sensor timeout"
  /\ retry_fault sensor_down_interrupted = Some KeyboardInterrupt
  /\ sample_loop [sensor_down_interrupted; intruder] started
     = (Raise KeyboardInterrupt, started, failed_cycle_trace "sensor timeout").
Proof.
  split; [reflexivity | ]. split; [reflexivity | ]. split; [reflexivity | ].
  split; [reflexivity | ].
  exact (proj1 (@interrupt_during_retry_pause_escapes threshold loop_delay
                  intrusion_message safe_message startup_message started
                  sensor_down_interrupted "sensor timeout" [intruder]
                  eq_refl eq_refl eq_refl eq_refl)).
Defined.

Lemma interrupt_during_delay_keeps_cycle_witness :
  initialized started = true
  /\ running started = true
  /\ acquired intruder_interrupted = Reading true 50 None None
  /\ delay_fault intruder_interrupted = Some KeyboardInterrupt
  /\ exists intrusion s1 t1,
       sample_cycle intruder_interrupted started = (Return intrusion, s1, t1)
       /\ cycle_count s1 = cycle_count started + 1
       /\ sample_loop [intruder_interrupted; passer_by] started
          = (Return tt, set_running false s1,
             t1 ++ [Sleep loop_delay; interrupt_line]).
Proof.
  split; [reflexivity | ]. split; [reflexivity | ]. split; [reflexivity | ].
  split; [reflexivity | ].
  exact (@interrupt_during_delay_keeps_cycle threshold loop_delay intrusion_message
           safe_message started intruder_interrupted true 50%float None None
           [passer_by] eq_refl eq_refl eq_refl eq_refl).
Defined.

Lemma monitor_contains_exceptions_witness :
  initialized started = true
  /\ exists s' tr,
       sample_monitor None [sensor_down_pause_fails; intruder] started
       = (Return tt, s', tr)
       /\ shows_error tr = true.
Proof.
  split; [reflexivity | ].
  destruct (sample_monitor None [sensor_down_pause_fails; intruder] started)
    as [[o s'] tr] eqn:H.
  destruct (@monitor_contains_exceptions threshold loop_delay intrusion_message
              safe_message startup_message [sensor_down_pause_fails; intruder]
              started o s' tr eq_refl H) as [_ Shown].
  destruct Shown as [-> Sh].
  - eexists _, _, _. reflexivity.
  - exists s', tr. split; [reflexivity | exact Sh].
Defined.


Lemma lcd_settings_constant_witness :
  exists o s' tr,
    sample_program None None [intruder; sensor_down; passer_by; ctrl_c] = (o, s', tr)
    /\ exists dm,
         display_manager s' = Some dm
         /\ display_update_interval (lcd dm) = 1%float
         /\ enable_framebuffer (lcd dm) = false.
Proof.
  destruct (sample_program None None [intruder; sensor_down; passer_by; ctrl_c])
    as [[o s'] tr] eqn:H.
  exists o, s', tr. split; [reflexivity | ].
  exact (@lcd_settings_constant threshold loop_delay intrusion_message
           safe_message startup_message shutdown_message None
           [intruder; sensor_down; passer_by; ctrl_c] o s' tr H).
Defined.

Lemma display_message_renders_present_keys_witness :
  (display_update_interval sample_lcd <=? 1001 - last_update_time sample_lcd)%float = true
  /\ prints_line_with "STATUS: " (snd (display_message 1001 safe_message None sample_lcd))
     = true
  /\ prints_line_with "Time: " (snd (display_message 1001 safe_message None sample_lcd))
     = false
  /\ prints_line_with "Time: "
       (snd (display_message 1001 intrusion_message (Some near) sample_lcd))
     = true.
Proof.
  split; [reflexivity | ].
  destruct (@display_message_renders_present_keys sample_lcd 1001 safe_message None
              eq_refl) as (_ & St & _ & _ & Ti & _).
  destruct (@display_message_renders_present_keys sample_lcd 1001 intrusion_message
              (Some near) eq_refl) as (_ & _ & _ & _ & Ti' & _).
  split; [exact St | ]. split; [exact Ti | exact Ti'].
Defined.
